(** * cache-rocket: the launch and cleanup phases of the Turborepo
      remote-cache GitHub Action

    A shallow embedding of [src/launch-server.ts] and [src/cleanup-server.ts].
    Both phases are sequential orchestration scripts around external
    collaborators (the [@actions/core] toolkit, [fs], [portfinder],
    [crypto], [child_process], [wait-port], [process.kill]).  Every call to
    a collaborator is recorded, with its outcome, in an interaction trace;
    what the collaborator answers is read from an oracle record.  JavaScript
    exceptions are an explicit [Throw] completion. *)

From Stdlib Require Import ZArith NArith List Ascii String DecimalString Lia.
From Stdlib Require Import Strings.Byte.
From Stdlib Require Import DecimalPos DecimalN.
From stdpp Require Import base option list strings gmap.

Local Open Scope string_scope.
Local Open Scope list_scope.

(** ** JavaScript strings, numbers and values *)

Module Js.

(** Strings are sequences of UTF-8 bytes; [of_bytes] writes the ones with
    no printable literal. *)
Definition of_bytes (l : list nat) : string :=
  fold_right (fun n s => String (ascii_of_nat n) s) EmptyString l.

Definition LF : ascii := ascii_of_nat 10.

(** [Number.prototype.toString] on a non-negative integer (ports, pids). *)
Definition Number_toString (n : N) : string :=
  NilZero.string_of_uint (N.to_uint n).

(** A template-literal hole [${x}] filled with a possibly undefined number. *)
Definition template_number (x : option N) : string :=
  match x with
  | Some n => Number_toString n
  | None => "undefined"
  end.

(** Truthiness of a string: only the empty string is falsy. *)
Definition truthy (s : string) : bool :=
  match s with
  | EmptyString => false
  | String _ _ => true
  end.

(** [a || b] on strings. *)
Definition or_else (a b : string) : string :=
  if truthy a then a else b.

(** *** [String.prototype.trim]

    The ECMAScript WhiteSpace and LineTerminator code points, each in
    its UTF-8 encoding: U+0009..U+000D, U+0020, U+00A0, U+1680,
    U+2000..U+200A, U+2028, U+2029, U+202F, U+205F, U+3000, U+FEFF. *)
Definition white_space : list string :=
  map of_bytes
    [ [9]; [10]; [11]; [12]; [13]; [32]; [194; 160]; [225; 154; 128];
      [226; 128; 128]; [226; 128; 129]; [226; 128; 130]; [226; 128; 131];
      [226; 128; 132]; [226; 128; 133]; [226; 128; 134]; [226; 128; 135];
      [226; 128; 136]; [226; 128; 137]; [226; 128; 138];
      [226; 128; 168]; [226; 128; 169]; [226; 128; 175];
      [226; 129; 159]; [227; 128; 128]; [239; 187; 191] ].

(** [strip_prefix p s] is the rest of [s] after [p], if [s] starts with [p]. *)
Fixpoint strip_prefix (p s : string) : option string :=
  match p, s with
  | EmptyString, _ => Some s
  | String a p', String b s' =>
      if Ascii.eqb a b then strip_prefix p' s' else None
  | String _ _, EmptyString => None
  end.

(** Remove one leading character out of [table], if there is one. *)
Fixpoint strip_one (table : list string) (s : string) : option string :=
  match table with
  | [] => None
  | p :: table' =>
      match strip_prefix p s with
      | Some r => Some r
      | None => strip_one table' s
      end
  end.

Fixpoint strip_many (fuel : nat) (table : list string) (s : string) : string :=
  match fuel with
  | O => s
  | S fuel' =>
      match strip_one table s with
      | Some r => strip_many fuel' table r
      | None => s
      end
  end.

Definition trimStart (s : string) : string :=
  strip_many (String.length s) white_space s.

Definition trimEnd (s : string) : string :=
  String.rev
    (strip_many (String.length s) (map String.rev white_space) (String.rev s)).

Definition trim (s : string) : string := trimEnd (trimStart s).

(** *** [String.prototype.split] on a one-character separator, and
    [Array.prototype.join] *)
Fixpoint split (sep : ascii) (s : string) : list string :=
  match s with
  | EmptyString => [EmptyString]
  | String c r =>
      if Ascii.eqb c sep then EmptyString :: split sep r
      else match split sep r with
           | h :: t => String c h :: t
           | [] => [String c EmptyString]
           end
  end.

Fixpoint join (sep : string) (l : list string) : string :=
  match l with
  | [] => EmptyString
  | [x] => x
  | x :: rest => x +:+ sep +:+ join sep rest
  end.

(** *** [Buffer.prototype.toString('hex')] *)
Definition hex_digit (n : N) : ascii :=
  match String.get (N.to_nat n) "0123456789abcdef" with
  | Some c => c
  | None => "0"%char
  end.

Definition hex_of_byte (b : byte) : string :=
  let n := Byte.to_N b in
  String (hex_digit (n / 16)) (String (hex_digit (n mod 16)) EmptyString).

Fixpoint Buffer_toString_hex (buf : list byte) : string :=
  match buf with
  | [] => EmptyString
  | b :: rest => hex_of_byte b +:+ Buffer_toString_hex rest
  end.

Definition is_lower_hex (c : ascii) : bool :=
  let n := nat_of_ascii c in
  ((48 <=? n)%nat && (n <=? 57)%nat) || ((97 <=? n)%nat && (n <=? 102)%nat).

(** *** [parseInt(s)] with no radix

    Leading white space is skipped, a sign is read, a [0x]/[0X] prefix
    selects radix 16, and the longest run of digits is converted;
    [None] stands for [NaN].  (Rounding of integers beyond 2^53 to a
    double is not represented.) *)
Definition digit_value (radix : N) (c : ascii) : option N :=
  let n := N_of_ascii c in
  let v :=
    if (48 <=? n)%N && (n <=? 57)%N then Some (n - 48)%N
    else if (97 <=? n)%N && (n <=? 122)%N then Some (n - 87)%N
    else if (65 <=? n)%N && (n <=? 90)%N then Some (n - 55)%N
    else None in
  match v with
  | Some d => if (d <? radix)%N then Some d else None
  | None => None
  end.

Fixpoint digits_value (radix : N) (acc : option N) (s : string) : option N :=
  match s with
  | EmptyString => acc
  | String c r =>
      match digit_value radix c with
      | Some d => digits_value radix (Some (default 0%N acc * radix + d)%N) r
      | None => acc
      end
  end.

Definition parseInt (s : string) : option Z :=
  let s1 := trimStart s in
  let '(negative, s2) :=
    match s1 with
    | String "-" r => (true, r)
    | String "+" r => (false, r)
    | _ => (false, s1)
    end in
  let '(radix, s3) :=
    match s2 with
    | String "0" (String "x" r) => (16%N, r)
    | String "0" (String "X" r) => (16%N, r)
    | _ => (10%N, s2)
    end in
  match digits_value radix None s3 with
  | Some n => Some (if negative then (- Z.of_N n)%Z else Z.of_N n)
  | None => None
  end.

(** *** Exceptions

    What a [catch (error)] clause can receive: an [Error] object with its
    [message], or any other value, kept as its [String(error)] form. *)
Inductive Thrown : Type :=
| ErrorObject (message : string)
| NonError (as_string : string).

(** [error instanceof Error ? error.message : String(error)] *)
Definition message_of (error : Thrown) : string :=
  match error with
  | ErrorObject message => message
  | NonError as_string => as_string
  end.

Inductive Completion (A : Type) : Type :=
| Normal (a : A)
| Throw (error : Thrown).
Arguments Normal {A} a.
Arguments Throw {A} error.

(** The values an untyped object literal can hold, as far as the schema
    tells them apart (an array's items play no part in it). *)
Inductive Value : Type :=
| Undefined
| Null
| Boolean (b : bool)
| Number (n : Z)
| Str (s : string)
| Array.

End Js.

Export Js(Thrown(..), Completion(..), message_of).

(** ** The interaction trace and the effect monad *)

Module Actions.

(** The handle [spawn] returns: [pid] is undefined when the child could
    not be started. *)
Record ChildProcess : Type := { pid : option N }.

Record SpawnOptions : Type := {
  detached : bool;
  stdio : string;
  env : gmap string string
}.

Record WaitPortOptions : Type := {
  wp_host : string;
  wp_port : N;
  wp_timeout : N
}.

(** What [waitPort] resolves to; only [open] is read. *)
Record WaitPortResult : Type := { open : bool }.

(** One call to a collaborator, with what it answered. *)
Inductive Event : Type :=
| EvMkdir (path : string) (recursive : bool) (out : Completion unit)
| EvGetPortPromise (out : Completion N)
| EvRandomBytes (size : nat) (out : Completion (list byte))
| EvGetInput (name : string) (out : string)
| EvExportVariable (name value : string) (out : Completion unit)
| EvSpawn (command : string) (args : list string) (options : SpawnOptions)
    (out : Completion ChildProcess)
| EvUnref
| EvWaitPort (options : WaitPortOptions) (out : Completion WaitPortResult)
| EvInfo (message : string)
| EvDebug (message : string)
| EvStartGroup (name : string)
| EvEndGroup
| EvSetFailed (message : string)
| EvSaveState (name value : string) (out : Completion unit)
| EvGetState (name : string) (out : Completion string)
| EvKill (pid : option Z) (signal : string) (out : Completion unit)
| EvReadFile (path encoding : string).

(** A computation: the calls it made, in order, and how it completed. *)
Definition M (A : Type) : Type := (list Event * Completion A)%type.

#[global] Instance M_ret : MRet M := fun A a => ([], Normal a).

#[global] Instance M_bind : MBind M := fun A B f m =>
  match m with
  | (tr, Normal a) => let '(tr', r) := f a in (tr ++ tr', r)
  | (tr, Throw e) => (tr, Throw e)
  end.

Definition throw {A : Type} (e : Thrown) : M A := ([], Throw e).

(** [try { body } catch (error) { handler error }] *)
Definition try_catch {A : Type} (body : M A) (handler : Thrown -> M A) : M A :=
  match body with
  | (tr, Normal a) => (tr, Normal a)
  | (tr, Throw e) => let '(tr', r) := handler e in (tr ++ tr', r)
  end.

(** A call that cannot throw. *)
Definition emit (ev : Event) : M unit := ([ev], Normal tt).

(** A call whose outcome [out] the collaborator decides. *)
Definition call {A : Type} (ev : Completion A -> Event) (out : Completion A) : M A :=
  ([ev out], out).

Definition when (b : bool) (m : M unit) : M unit :=
  if b then m else mret tt.

Definition trace {A : Type} (m : M A) : list Event := fst m.
Definition completion {A : Type} (m : M A) : Completion A := snd m.

(** The [@actions/core] reporting calls only write to standard output. *)
Definition info (message : string) : M unit := emit (EvInfo message).
Definition debug (message : string) : M unit := emit (EvDebug message).
Definition startGroup (name : string) : M unit := emit (EvStartGroup name).
Definition endGroup : M unit := emit EvEndGroup.
Definition setFailed (message : string) : M unit := emit (EvSetFailed message).

(** Projections of a trace: the calls made to one collaborator, in order. *)
Definition failures (tr : list Event) : list string :=
  omap (fun ev => match ev with EvSetFailed m => Some m | _ => None end) tr.

Definition infos (tr : list Event) : list string :=
  omap (fun ev => match ev with EvInfo m => Some m | _ => None end) tr.

Definition allocations (tr : list Event) : list (Completion N) :=
  omap (fun ev => match ev with EvGetPortPromise out => Some out | _ => None end) tr.

Definition buffers (tr : list Event) : list (nat * Completion (list byte)) :=
  omap (fun ev => match ev with EvRandomBytes n out => Some (n, out) | _ => None end) tr.

Definition exports (tr : list Event) : list (string * string * Completion unit) :=
  omap (fun ev => match ev with
                  | EvExportVariable k v out => Some (k, v, out)
                  | _ => None
                  end) tr.

(** The variables published to the job environment: the [exportVariable]
    calls that went through. *)
Definition published (tr : list Event) : list (string * string) :=
  omap (fun ev => match ev with
                  | EvExportVariable k v (Normal _) => Some (k, v)
                  | _ => None
                  end) tr.

Definition spawns (tr : list Event) : list (SpawnOptions * Completion ChildProcess) :=
  omap (fun ev => match ev with
                  | EvSpawn _ _ options out => Some (options, out)
                  | _ => None
                  end) tr.

Definition polls (tr : list Event)
  : list (WaitPortOptions * Completion WaitPortResult) :=
  omap (fun ev => match ev with EvWaitPort options out => Some (options, out) | _ => None end) tr.

(** The [saveState] calls attempted, and the store the calls that went
    through leave behind. *)
Definition saveState_calls (tr : list Event) : list (string * string) :=
  omap (fun ev => match ev with EvSaveState k v _ => Some (k, v) | _ => None end) tr.

Definition persisted (tr : list Event) : gmap string string :=
  fold_left (fun st ev =>
               match ev with
               | EvSaveState k v (Normal _) => <[k := v]> st
               | _ => st
               end) tr ∅.

Definition kills (tr : list Event) : list (option Z * string) :=
  omap (fun ev => match ev with EvKill p s _ => Some (p, s) | _ => None end) tr.

Definition reads (tr : list Event) : list string :=
  omap (fun ev => match ev with EvReadFile path _ => Some path | _ => None end) tr.

End Actions.

Import Actions.

(** ** The part of [zod] the schema uses *)

Module Zod.

Inductive ZodType : Type :=
| z_string
| z_optional (inner : ZodType).

(** An [invalid_type] issue: the key it is about and the [typeof]-like name
    of what was found there. *)
Record ZodIssue : Type := {
  issue_path : string;
  issue_received : string
}.

Definition received (v : option Js.Value) : string :=
  match v with
  | None | Some Js.Undefined => "undefined"
  | Some Js.Null => "null"
  | Some (Js.Boolean _) => "boolean"
  | Some (Js.Number _) => "number"
  | Some (Js.Str _) => "string"
  | Some Js.Array => "array"
  end.

(** One field: [inl] the validated value ([None]: the key is left out),
    [inr] the value is refused. *)
Fixpoint check (t : ZodType) (v : option Js.Value) : option string + unit :=
  match t with
  | z_string =>
      match v with
      | Some (Js.Str s) => inl (Some s)
      | _ => inr tt
      end
  | z_optional inner =>
      match v with
      | None | Some Js.Undefined => inl None
      | _ => check inner v
      end
  end.

(** [z.object(shape)]: every key of the shape is checked, all issues are
    collected, keys outside the shape are dropped. *)
Fixpoint object_check (shape : list (string * ZodType)) (input : gmap string Js.Value)
  : list ZodIssue * gmap string string :=
  match shape with
  | [] => ([], ∅)
  | (key, t) :: shape' =>
      let '(issues, output) := object_check shape' input in
      match check t (input !! key) with
      | inl (Some s) => (issues, <[key := s]> output)
      | inl None => (issues, output)
      | inr _ =>
          ({| issue_path := key; issue_received := received (input !! key) |}
             :: issues, output)
      end
  end.

End Zod.

Import Zod.

(** ** The launch phase, [src/launch-server.ts] *)

Module Launch.

(** What the collaborators answer during one run of the phase.
    [inputs] is the action's [with:] block as [core.getInput] presents it
    (an input that is not given reads as the empty string), [process_env]
    is [process.env] as the phase finds it, [entropy] the random source
    behind [crypto.randomBytes], and [zod_message] the rendering of issues
    into a [ZodError] message. [child_process_spawn] answers at once, with
    a handle or a synchronous exception; a child that could not be started
    (the command does not exist) is reported later, by the ['error'] event
    [child_error_event] of the handle. *)
Record Oracle : Type := {
  fs_mkdir : string -> bool -> Completion unit;
  portfinder_getPortPromise : Completion N;
  crypto_fault : option Thrown;
  entropy : nat -> byte;
  inputs : gmap string string;
  core_exportVariable : string -> string -> Completion unit;
  process_env : gmap string string;
  child_process_spawn :
    string -> list string -> SpawnOptions -> Completion ChildProcess;
  child_error_event : option Thrown;
  wait_port : WaitPortOptions -> Completion WaitPortResult;
  core_saveState : string -> string -> Completion unit;
  zod_message : list ZodIssue -> string
}.

Definition ServerEnvSchema : list (string * ZodType) :=
  [ ("PORT", z_string);
    ("TURBO_TOKEN", z_string);
    ("STORAGE_PROVIDER", z_optional z_string);
    ("STORAGE_PATH", z_optional z_string) ].

(** [ServerEnvSchema.parse]: the validated object, or a thrown [ZodError]. *)
Definition ServerEnvSchema_parse (o : Oracle) (data : gmap string Js.Value)
  : M (gmap string string) :=
  match object_check ServerEnvSchema data with
  | ([], output) => mret output
  | (issues, _) => throw (ErrorObject (zod_message o issues))
  end.

Section Calls.
Variable o : Oracle.

Definition mkdir (path : string) (recursive : bool) : M unit :=
  call (EvMkdir path recursive) (fs_mkdir o path recursive).

Definition getPortPromise : M N :=
  call EvGetPortPromise (portfinder_getPortPromise o).

(** [randomBytes(size)]: a buffer of [size] bytes from the random source. *)
Definition randomBytes (size : nat) : M (list byte) :=
  call (EvRandomBytes size)
    (match crypto_fault o with
     | Some e => Throw e
     | None => Normal (map (entropy o) (seq 0 size))
     end).

(** What [core.getInput(name)] returns. *)
Definition input (name : string) : string := default "" (inputs o !! name).

Definition getInput (name : string) : M string :=
  emit (EvGetInput name (input name));; mret (input name).

(** [core.exportVariable(name, value)] sets [process.env[name]] and passes
    the variable on to the job; [env] is [process.env] before the call,
    the result is [process.env] after it. *)
Definition exportVariable (env : gmap string string) (name value : string)
  : M (gmap string string) :=
  call (EvExportVariable name value) (core_exportVariable o name value);;
  mret (<[name := value]> env).

Definition spawn (command : string) (args : list string) (options : SpawnOptions)
  : M ChildProcess :=
  call (EvSpawn command args options) (child_process_spawn o command args options).

Definition unref (_ : ChildProcess) : M unit := emit EvUnref.

Definition waitPort (options : WaitPortOptions) : M WaitPortResult :=
  call (EvWaitPort options) (wait_port o options).

Definition saveState (name value : string) : M unit :=
  call (EvSaveState name value) (core_saveState o name value).

(** The object literal [serverEnvData]: the two storage keys are spread in
    only when their input is truthy. *)
Definition serverEnvData (port : N) (token storageProvider storagePath : string)
  : gmap string Js.Value :=
  let base : gmap string Js.Value :=
    <["TURBO_TOKEN" := Js.Str token]>
      (<["PORT" := Js.Str (Js.Number_toString port)]> ∅) in
  let withProvider :=
    if Js.truthy storageProvider
    then <["STORAGE_PROVIDER" := Js.Str storageProvider]> base else base in
  if Js.truthy storagePath
  then <["STORAGE_PATH" := Js.Str storagePath]> withProvider else withProvider.

(** [pid?.toString() ?? ''] *)
Definition pid_state (serverProcess : ChildProcess) : string :=
  match pid serverProcess with
  | Some n => Js.Number_toString n
  | None => ""
  end.

(** The body of the [try] block. *)
Definition startCacheServer_body : M unit :=
  let logDir := "logs" in
  mkdir logDir true;;
  port ← getPortPromise;
  buffer ← randomBytes 32;
  let token := Js.Buffer_toString_hex buffer in
  storageProvider ← getInput "storage-provider";
  storagePath ← getInput "storage-path";
  teamIdInput ← getInput "team-id";
  let teamId := Js.or_else teamIdInput "ci" in
  hostInput ← getInput "host";
  let host := Js.or_else hostInput "http://127.0.0.1" in
  let turboApi := host +:+ ":" +:+ Js.Number_toString port in
  process_env1 ← exportVariable (process_env o) "TURBO_API" turboApi;
  process_env2 ← exportVariable process_env1 "TURBO_TOKEN" token;
  process_env3 ← exportVariable process_env2 "TURBO_TEAM" teamId;
  validatedEnv ← ServerEnvSchema_parse o
                   (serverEnvData port token storageProvider storagePath);
  let env := validatedEnv ∪ process_env3 in
  serverProcess ← spawn "npx" ["turborepo-remote-cache"]
                    {| detached := true; stdio := "ignore"; env := env |};
  unref serverProcess;;
  result ← waitPort {| wp_host := "localhost"; wp_port := port; wp_timeout := 30000 |};
  when (negb (open result))
    (throw (ErrorObject
              ("Port " +:+ Js.Number_toString port +:+ " did not open within 30 seconds")));;
  info "âœ… Turborepo Remote Cache Server started";;
  info ("   PID: " +:+ Js.template_number (pid serverProcess));;
  info ("   Port: " +:+ Js.Number_toString port);;
  info ("   API: " +:+ turboApi);;
  info ("   Team: " +:+ teamId);;
  when (Js.truthy storageProvider)
    (info ("   Storage Provider: " +:+ storageProvider));;
  when (Js.truthy storagePath)
    (info ("   Storage Path: " +:+ storagePath));;
  saveState "serverPid" (pid_state serverProcess);;
  saveState "serverPort" (Js.Number_toString port).

Definition startCacheServer : M unit :=
  try_catch startCacheServer_body
    (fun error =>
       let message := message_of error in
       setFailed ("Failed to start Turborepo Remote Cache Server: " +:+ message)).

End Calls.

(** How the Node process that runs the phase ends: the function returned,
    or an exception reached the event loop with nothing to catch it. *)
Inductive Exit : Type :=
| Returned (c : Completion unit)
| Uncaught (error : Thrown).

(** The calls made before the readiness poll answers. *)
Fixpoint before_poll (tr : list Event) : list Event :=
  match tr with
  | [] => []
  | EvWaitPort _ _ :: _ => []
  | ev :: rest => ev :: before_poll rest
  end.

(** The process that runs [startCacheServer]. The handle [spawn] returned
    has no ['error'] listener (lines 51-62 attach none), so an ['error']
    event of the child is rethrown by the event loop: at the first point
    where the function yields after the spawn, the [await] of [waitPort],
    outside the [try] block. The process then dies before the poll
    answers, and what the function would have done with the answer does
    not happen. Without such an event the process does what the function
    does. *)
Definition launch_process (o : Oracle) : list Event * Exit :=
  match child_error_event o, spawns (trace (startCacheServer o)) with
  | Some error, (_, Normal _) :: _ =>
      (before_poll (trace (startCacheServer o)), Uncaught error)
  | _, _ => (trace (startCacheServer o), Returned (completion (startCacheServer o)))
  end.

(** The same run with other answers of [core.getInput], [process_env]
    left as it is. (The runner hands the inputs over as [INPUT_*]
    variables; [inputs] and [process_env] are separate fields here, and
    this changes the former only.) *)
Definition with_inputs (o : Oracle) (m : gmap string string) : Oracle :=
  {| fs_mkdir := fs_mkdir o;
     portfinder_getPortPromise := portfinder_getPortPromise o;
     crypto_fault := crypto_fault o;
     entropy := entropy o;
     inputs := m;
     core_exportVariable := core_exportVariable o;
     process_env := process_env o;
     child_process_spawn := child_process_spawn o;
     child_error_event := child_error_event o;
     wait_port := wait_port o;
     core_saveState := core_saveState o;
     zod_message := zod_message o |}.

End Launch.

(** ** The cleanup phase, [src/cleanup-server.ts] *)

Module Cleanup.

(** What the collaborators answer during one run of the phase.  [state] is
    the store the launch phase persisted into ([core.getState] reads a key
    that was never saved as the empty string); [settles_first] is the order
    in which the two pending file reads of [Promise.all] settle. *)
Record Oracle : Type := {
  state : gmap string string;
  core_getState_fault : option Thrown;
  process_kill : option Z -> string -> Completion unit;
  fs_readFile : string -> string -> Completion string;
  error_log_settles_first : bool
}.

Definition logFiles : list string :=
  [ "logs/turborepo-remote-cache.log";
    "logs/turborepo-remote-cache-error.log" ].

Section Calls.
Variable o : Oracle.

Definition getState (name : string) : M string :=
  call (EvGetState name)
    (match core_getState_fault o with
     | Some e => Throw e
     | None => Normal (default "" (state o !! name))
     end).

Definition kill (pid : option Z) (signal : string) : M unit :=
  call (EvKill pid signal) (process_kill o pid signal).

Definition stopServer (serverPid : string) : M unit :=
  try_catch
    (kill (Js.parseInt serverPid) "SIGTERM";;
     info ("✅ Turborepo Remote Cache Server stopped (PID: " +:+ serverPid +:+ ")"))
    (fun error =>
       let message := message_of error in
       info ("❌ Failed to stop server process " +:+ serverPid +:+ ": " +:+ message)).

(** [logContent.split('\n').map((line) => `  ${line}`).join('\n')] *)
Definition indentedContent (logContent : string) : string :=
  Js.join (String Js.LF "")
    (map (fun line => "  " +:+ line) (Js.split Js.LF logContent)).

(** [displayLogFile] up to its [await]: the read is issued. *)
Definition displayLogFile_start (logFile : string) : M unit :=
  emit (EvReadFile logFile "utf8").

(** [displayLogFile] from its [await] on, once the read has settled. *)
Definition displayLogFile_resume (logFile : string) : M unit :=
  try_catch
    (logContent ← (([], fs_readFile o logFile "utf8") : M string);
     when (Js.truthy (Js.trim logContent))
       (startGroup ("📋 " +:+ logFile);;
        info (indentedContent logContent);;
        endGroup))
    (fun error =>
       let message := message_of error in
       debug ("Could not read log file " +:+ logFile +:+ ": " +:+ message)).

Definition displayLogFile (logFile : string) : M unit :=
  displayLogFile_start logFile;; displayLogFile_resume logFile.

Fixpoint for_each (f : string -> M unit) (l : list string) : M unit :=
  match l with
  | [] => mret tt
  | x :: rest => f x;; for_each f rest
  end.

(** [await Promise.all(logFiles.map(displayLogFile))]: [map] starts the
    calls in order, each running up to its [await]; the parts after the
    [await] then run one at a time, in the order the reads settle. *)
Definition displayLogs : M unit :=
  for_each displayLogFile_start logFiles;;
  for_each displayLogFile_resume
    (if error_log_settles_first o then rev logFiles else logFiles).

Definition cleanupCacheServer : M unit :=
  try_catch
    (serverPid ← getState "serverPid";
     if negb (Js.truthy serverPid)
     then info "❌ Turborepo Remote Cache Server was not started or PID not found"
     else (stopServer serverPid;; displayLogs))
    (fun error =>
       let message := message_of error in
       setFailed ("Error in post action: " +:+ message)).

End Calls.

End Cleanup.

(** ** Vocabulary of the statements *)

(** [needle] occurs in [s]. *)
Definition includes (s needle : string) : Prop :=
  exists before after, s = before +:+ needle +:+ after.

(** [c] does not occur in [s]. *)
Definition free_of (c : ascii) (s : string) : Prop :=
  ~ In c (list_ascii_of_string s).

(** A token: 64 characters, each a lowercase hexadecimal digit. *)
Definition is_token (s : string) : Prop :=
  String.length s = 64 /\
  Forall (fun c => Js.is_lower_hex c = true) (list_ascii_of_string s).

Definition indent (line : string) : string := "  " +:+ line.

(** The object the schema lets through for [Launch.serverEnvData]. *)
Definition insert_truthy (key value : string) (m : gmap string string)
  : gmap string string :=
  if Js.truthy value then <[key := value]> m else m.

Definition validated (port : N) (token storageProvider storagePath : string)
  : gmap string string :=
  <["PORT" := Js.Number_toString port]>
    (<["TURBO_TOKEN" := token]>
       (insert_truthy "STORAGE_PROVIDER" storageProvider
          (insert_truthy "STORAGE_PATH" storagePath ∅))).

(** [block] occurs in [l] as consecutive elements. *)
Definition has_block {A : Type} (block l : list A) : Prop :=
  exists before after, l = before ++ block ++ after.

(** What a storage key of the child's environment holds, given the value
    [v] of its input and the ambient environment. *)
Definition storage_key_rule (key v : string) (ambient child : gmap string string)
  : Prop :=
  (is_Some (child !! key) <-> v <> "" \/ is_Some (ambient !! key)) /\
  (v <> "" -> child !! key = Some v) /\
  (v = "" -> child !! key = ambient !! key).

(** A computation that never signals failure itself. *)
Definition silent {A : Type} (m : M A) : Prop := failures (trace m) = [].

(** ** Scenarios of the test suites *)

Module Scenario.

(** The defaults the unit tests install: no inputs, port 3000, a zeroed
    random buffer, a child with pid 12345, a port that opens. *)
Definition launch_defaults : Launch.Oracle :=
  {| Launch.fs_mkdir := fun _ _ => Normal tt;
     Launch.portfinder_getPortPromise := Normal 3000%N;
     Launch.crypto_fault := None;
     Launch.entropy := fun _ => x00;
     Launch.inputs := ∅;
     Launch.core_exportVariable := fun _ _ => Normal tt;
     Launch.process_env := ∅;
     Launch.child_process_spawn := fun _ _ _ => Normal {| pid := Some 12345%N |};
     Launch.child_error_event := None;
     Launch.wait_port := fun _ => Normal {| open := true |};
     Launch.core_saveState := fun _ _ => Normal tt;
     Launch.zod_message := fun _ => "Invalid input" |}.

(** The complete workflow with S3 storage. *)
Definition s3_workflow : Launch.Oracle :=
  {| Launch.fs_mkdir := fun _ _ => Normal tt;
     Launch.portfinder_getPortPromise := Normal 4000%N;
     Launch.crypto_fault := None;
     Launch.entropy := fun _ => x00;
     Launch.inputs :=
       {[ "storage-provider" := "s3"; "storage-path" := "my-bucket";
          "team-id" := "production"; "host" := "http://localhost" ]};
     Launch.core_exportVariable := fun _ _ => Normal tt;
     Launch.process_env := ∅;
     Launch.child_process_spawn := fun _ _ _ => Normal {| pid := Some 54321%N |};
     Launch.child_error_event := None;
     Launch.wait_port := fun _ => Normal {| open := true |};
     Launch.core_saveState := fun _ _ => Normal tt;
     Launch.zod_message := fun _ => "Invalid input" |}.

(** The port never opens. *)
Definition port_stays_closed : Launch.Oracle :=
  {| Launch.fs_mkdir := fun _ _ => Normal tt;
     Launch.portfinder_getPortPromise := Normal 3000%N;
     Launch.crypto_fault := None;
     Launch.entropy := fun _ => x00;
     Launch.inputs := ∅;
     Launch.core_exportVariable := fun _ _ => Normal tt;
     Launch.process_env := ∅;
     Launch.child_process_spawn := fun _ _ _ => Normal {| pid := Some 12345%N |};
     Launch.child_error_event := None;
     Launch.wait_port := fun _ => Normal {| open := false |};
     Launch.core_saveState := fun _ _ => Normal tt;
     Launch.zod_message := fun _ => "Invalid input" |}.

(** No port can be allocated. *)
Definition no_ports_available : Launch.Oracle :=
  {| Launch.fs_mkdir := fun _ _ => Normal tt;
     Launch.portfinder_getPortPromise := Throw (ErrorObject "No ports available");
     Launch.crypto_fault := None;
     Launch.entropy := fun _ => x00;
     Launch.inputs := ∅;
     Launch.core_exportVariable := fun _ _ => Normal tt;
     Launch.process_env := ∅;
     Launch.child_process_spawn := fun _ _ _ => Normal {| pid := Some 12345%N |};
     Launch.child_error_event := None;
     Launch.wait_port := fun _ => Normal {| open := true |};
     Launch.core_saveState := fun _ _ => Normal tt;
     Launch.zod_message := fun _ => "Invalid input" |}.

(** No storage input is given, but the job's own environment already
    defines [STORAGE_PROVIDER]. *)
Definition ambient_storage : Launch.Oracle :=
  {| Launch.fs_mkdir := fun _ _ => Normal tt;
     Launch.portfinder_getPortPromise := Normal 3000%N;
     Launch.crypto_fault := None;
     Launch.entropy := fun _ => x00;
     Launch.inputs := ∅;
     Launch.core_exportVariable := fun _ _ => Normal tt;
     Launch.process_env := {[ "STORAGE_PROVIDER" := "s3" ]};
     Launch.child_process_spawn := fun _ _ _ => Normal {| pid := Some 12345%N |};
     Launch.child_error_event := None;
     Launch.wait_port := fun _ => Normal {| open := true |};
     Launch.core_saveState := fun _ _ => Normal tt;
     Launch.zod_message := fun _ => "Invalid input" |}.

(** An empty [storage-provider] input, as opposed to none. *)
Definition empty_provider_input : Launch.Oracle :=
  Launch.with_inputs launch_defaults {[ "storage-provider" := "" ]}.

Definition three_lines : string :=
  "Line 1" +:+ String Js.LF "Line 2" +:+ String Js.LF "Line 3".

Definition three_lines_indented : string :=
  "  Line 1" +:+ String Js.LF "  Line 2" +:+ String Js.LF "  Line 3".

(** Cleanup with pid 12345 persisted: the signal cannot be delivered, both
    logs hold three lines. *)
Definition kill_fails : Cleanup.Oracle :=
  {| Cleanup.state := {[ "serverPid" := "12345" ]};
     Cleanup.core_getState_fault := None;
     Cleanup.process_kill := fun _ _ => Throw (ErrorObject "Process not found");
     Cleanup.fs_readFile := fun _ _ => Normal three_lines;
     Cleanup.error_log_settles_first := false |}.

(** Cleanup after a launch that persisted nothing. *)
Definition not_started : Cleanup.Oracle :=
  {| Cleanup.state := ∅;
     Cleanup.core_getState_fault := None;
     Cleanup.process_kill := fun _ _ => Normal tt;
     Cleanup.fs_readFile := fun _ _ => Normal "";
     Cleanup.error_log_settles_first := false |}.

End Scenario.

(** ** Further projections, and the hand-off between the phases *)

Definition spawn_calls (tr : list Event)
  : list (string * list string * SpawnOptions * Completion ChildProcess) :=
  omap (fun ev => match ev with
                  | EvSpawn command args options out => Some (command, args, options, out)
                  | _ => None
                  end) tr.

Definition state_writes (tr : list Event) : list (string * string * Completion unit) :=
  omap (fun ev => match ev with
                  | EvSaveState k v out => Some (k, v, out)
                  | _ => None
                  end) tr.

Definition input_reads (tr : list Event) : list string :=
  omap (fun ev => match ev with EvGetInput name _ => Some name | _ => None end) tr.

Definition groups (tr : list Event) : list string :=
  omap (fun ev => match ev with EvStartGroup name => Some name | _ => None end) tr.

Definition group_ends (tr : list Event) : nat :=
  length (omap (fun ev => match ev with EvEndGroup => Some tt | _ => None end) tr).

Definition debugs (tr : list Event) : list string :=
  omap (fun ev => match ev with EvDebug m => Some m | _ => None end) tr.

(** The keys [ServerEnvSchema] names. *)
Definition schema_keys : list string :=
  ["PORT"; "TURBO_TOKEN"; "STORAGE_PROVIDER"; "STORAGE_PATH"].

(** The inputs [startCacheServer] asks for. *)
Definition launch_inputs : list string :=
  ["storage-provider"; "storage-path"; "team-id"; "host"].

(** The order in which the pending reads of [Cleanup.displayLogs] settle. *)
Definition settle_order (o : Cleanup.Oracle) : list string :=
  if Cleanup.error_log_settles_first o
  then rev Cleanup.logFiles else Cleanup.logFiles.

(** The title of the group of a log that was read with non-blank content. *)
Definition group_of (o : Cleanup.Oracle) (logFile : string) : option string :=
  match Cleanup.fs_readFile o logFile "utf8" with
  | Normal logContent =>
      if Js.truthy (Js.trim logContent) then Some ("📋 " +:+ logFile) else None
  | Throw _ => None
  end.

(** The diagnostic of a log that could not be read. *)
Definition diagnostic_of (o : Cleanup.Oracle) (logFile : string) : option string :=
  match Cleanup.fs_readFile o logFile "utf8" with
  | Normal _ => None
  | Throw error =>
      Some ("Could not read log file " +:+ logFile +:+ ": " +:+ message_of error)
  end.

(** The cleanup phase of a job whose launch phase left the trace [tr]: it
    reads the state that launch persisted. *)
Definition after_launch (tr : list Event) (c : Cleanup.Oracle) : Cleanup.Oracle :=
  {| Cleanup.state := persisted tr;
     Cleanup.core_getState_fault := Cleanup.core_getState_fault c;
     Cleanup.process_kill := Cleanup.process_kill c;
     Cleanup.fs_readFile := Cleanup.fs_readFile c;
     Cleanup.error_log_settles_first := Cleanup.error_log_settles_first c |}.

(** The number a decimal numeral denotes, read digit by digit from the
    left on top of [acc]. *)
Fixpoint uint_value (d : Decimal.uint) (acc : N) : N :=
  match d with
  | Decimal.Nil => acc
  | Decimal.D0 d' => uint_value d' (acc * 10 + 0)
  | Decimal.D1 d' => uint_value d' (acc * 10 + 1)
  | Decimal.D2 d' => uint_value d' (acc * 10 + 2)
  | Decimal.D3 d' => uint_value d' (acc * 10 + 3)
  | Decimal.D4 d' => uint_value d' (acc * 10 + 4)
  | Decimal.D5 d' => uint_value d' (acc * 10 + 5)
  | Decimal.D6 d' => uint_value d' (acc * 10 + 6)
  | Decimal.D7 d' => uint_value d' (acc * 10 + 7)
  | Decimal.D8 d' => uint_value d' (acc * 10 + 8)
  | Decimal.D9 d' => uint_value d' (acc * 10 + 9)
  end.

(** What the schema requires of an object. *)
Definition is_string (v : option Js.Value) : Prop := exists s, v = Some (Js.Str s).

Definition is_optional_string (v : option Js.Value) : Prop :=
  v = None \/ v = Some Js.Undefined \/ is_string v.

(** A field of a shape lets the object through. *)
Definition passes (data : gmap string Js.Value) (field : string * ZodType) : Prop :=
  exists r, check (snd field) (data !! fst field) = inl r.

(** What [ServerEnvSchema] asks of an object. *)
Definition accepted (data : gmap string Js.Value) : Prop :=
  is_string (data !! "PORT") /\ is_string (data !! "TURBO_TOKEN") /\
  is_optional_string (data !! "STORAGE_PROVIDER") /\
  is_optional_string (data !! "STORAGE_PATH").

(** A displayed line without its indentation. *)
Definition unindent (line : string) : string :=
  match line with
  | String _ (String _ rest) => rest
  | _ => line
  end.

Module Handoff.

(** A launch whose child process has no pid. *)
Definition child_without_pid : Launch.Oracle :=
  {| Launch.fs_mkdir := fun _ _ => Normal tt;
     Launch.portfinder_getPortPromise := Normal 3000%N;
     Launch.crypto_fault := None;
     Launch.entropy := fun _ => x00;
     Launch.inputs := ∅;
     Launch.core_exportVariable := fun _ _ => Normal tt;
     Launch.process_env := ∅;
     Launch.child_process_spawn := fun _ _ _ => Normal {| pid := None |};
     Launch.child_error_event := None;
     Launch.wait_port := fun _ => Normal {| open := true |};
     Launch.core_saveState := fun _ _ => Normal tt;
     Launch.zod_message := fun _ => "Invalid input" |}.

(** [npx] is not installed: [spawn] returns a handle without a pid, and the
    handle emits ['error'] with the cause. *)
Definition npx_missing : Launch.Oracle :=
  {| Launch.fs_mkdir := fun _ _ => Normal tt;
     Launch.portfinder_getPortPromise := Normal 3000%N;
     Launch.crypto_fault := None;
     Launch.entropy := fun _ => x00;
     Launch.inputs := ∅;
     Launch.core_exportVariable := fun _ _ => Normal tt;
     Launch.process_env := ∅;
     Launch.child_process_spawn := fun _ _ _ => Normal {| pid := None |};
     Launch.child_error_event := Some (ErrorObject "spawn npx ENOENT");
     Launch.wait_port := fun _ => Normal {| open := false |};
     Launch.core_saveState := fun _ _ => Normal tt;
     Launch.zod_message := fun _ => "Invalid input" |}.

(** A launch whose second state write is refused. *)
Definition port_write_refused : Launch.Oracle :=
  {| Launch.fs_mkdir := fun _ _ => Normal tt;
     Launch.portfinder_getPortPromise := Normal 3000%N;
     Launch.crypto_fault := None;
     Launch.entropy := fun _ => x00;
     Launch.inputs := ∅;
     Launch.core_exportVariable := fun _ _ => Normal tt;
     Launch.process_env := ∅;
     Launch.child_process_spawn := fun _ _ _ => Normal {| pid := Some 12345%N |};
     Launch.child_error_event := None;
     Launch.wait_port := fun _ => Normal {| open := true |};
     Launch.core_saveState :=
       fun name _ => if String.eqb name "serverPort"
                     then Throw (ErrorObject "Missing file at path")
                     else Normal tt;
     Launch.zod_message := fun _ => "Invalid input" |}.

(** The defaults of the cleanup unit tests: the signal is delivered, the
    logs are empty. *)
Definition cleanup_defaults : Cleanup.Oracle :=
  {| Cleanup.state := {[ "serverPid" := "12345" ]};
     Cleanup.core_getState_fault := None;
     Cleanup.process_kill := fun _ _ => Normal tt;
     Cleanup.fs_readFile := fun _ _ => Normal "";
     Cleanup.error_log_settles_first := false |}.

(** The state cannot be read. *)
Definition state_access_failed : Cleanup.Oracle :=
  {| Cleanup.state := ∅;
     Cleanup.core_getState_fault := Some (ErrorObject "State access failed");
     Cleanup.process_kill := fun _ _ => Normal tt;
     Cleanup.fs_readFile := fun _ _ => Normal "";
     Cleanup.error_log_settles_first := false |}.

(** The main log is there, the error log is not; the error log's read
    settles first. *)
Definition error_log_missing : Cleanup.Oracle :=
  {| Cleanup.state := {[ "serverPid" := "12345" ]};
     Cleanup.core_getState_fault := None;
     Cleanup.process_kill := fun _ _ => Normal tt;
     Cleanup.fs_readFile :=
       fun path _ => if String.eqb path "logs/turborepo-remote-cache.log"
                     then Normal "Main log content"
                     else Throw (ErrorObject "Error log not found");
     Cleanup.error_log_settles_first := true |}.

End Handoff.

(** * Facts about the JavaScript primitives *)

Section StringFacts.

Lemma append_cons (x : ascii) (a b : string) :
  String x a +:+ b = String x (a +:+ b).
Proof. reflexivity. Qed.

Lemma append_assoc (a b c : string) : (a +:+ b) +:+ c = a +:+ b +:+ c.
Proof.
  induction a as [|x a IH]; [reflexivity|].
  rewrite !append_cons. now rewrite IH.
Qed.

Lemma length_append (a b : string) :
  String.length (a +:+ b) = String.length a + String.length b.
Proof.
  induction a as [|x a IH]; [reflexivity|].
  rewrite append_cons. simpl. now rewrite IH.
Qed.

Lemma list_ascii_append (a b : string) :
  list_ascii_of_string (a +:+ b) = list_ascii_of_string a ++ list_ascii_of_string b.
Proof.
  induction a as [|x a IH]; [reflexivity|].
  rewrite append_cons. simpl. now rewrite IH.
Qed.

Lemma truthy_true_iff (s : string) : Js.truthy s = true <-> s <> "".
Proof. destruct s; simpl; split; intros; congruence. Qed.

Lemma truthy_false_iff (s : string) : Js.truthy s = false <-> s = "".
Proof. destruct s; simpl; split; intros; congruence. Qed.

Lemma or_else_default (a d : string) :
  Js.or_else a d = if decide (a = "") then d else a.
Proof. unfold Js.or_else. destruct a; reflexivity. Qed.

End StringFacts.

(** ** Hexadecimal encoding *)

Section HexFacts.

Lemma hex_of_byte_lower (b : byte) :
  Forall (fun c => Js.is_lower_hex c = true) (list_ascii_of_string (Js.hex_of_byte b)).
Proof.
  assert (H : forallb Js.is_lower_hex (list_ascii_of_string (Js.hex_of_byte b)) = true)
    by (destruct b; reflexivity).
  apply Forall_forall. intros c Hc. apply list_elem_of_In in Hc.
  rewrite forallb_forall in H. now apply H.
Qed.

Lemma Buffer_toString_hex_length (buf : list byte) :
  String.length (Js.Buffer_toString_hex buf) = 2 * length buf.
Proof.
  induction buf as [|b buf IH]; [reflexivity|].
  change (Js.Buffer_toString_hex (b :: buf))
    with (Js.hex_of_byte b +:+ Js.Buffer_toString_hex buf).
  rewrite length_append, IH. simpl. lia.
Qed.

Lemma Buffer_toString_hex_lower (buf : list byte) :
  Forall (fun c => Js.is_lower_hex c = true)
    (list_ascii_of_string (Js.Buffer_toString_hex buf)).
Proof.
  induction buf as [|b buf IH]; [constructor|].
  change (Js.Buffer_toString_hex (b :: buf))
    with (Js.hex_of_byte b +:+ Js.Buffer_toString_hex buf).
  rewrite list_ascii_append. apply Forall_app. split; [apply hex_of_byte_lower | exact IH].
Qed.

Lemma hex_of_32_bytes_is_token (buf : list byte) :
  length buf = 32 -> is_token (Js.Buffer_toString_hex buf).
Proof.
  intros Hlen. split.
  - rewrite Buffer_toString_hex_length, Hlen. reflexivity.
  - apply Buffer_toString_hex_lower.
Qed.

End HexFacts.

(** ** [split] and [join] *)

Section SplitJoin.
Variable sep : ascii.

Lemma free_of_cons (c : ascii) (s : string) :
  free_of sep (String c s) <-> c <> sep /\ free_of sep s.
Proof. unfold free_of. simpl. intuition congruence. Qed.

Lemma split_nonempty (s : string) : Js.split sep s <> [].
Proof.
  destruct s as [|c r]; simpl; [discriminate|].
  destruct (Ascii.eqb c sep); [discriminate|].
  destruct (Js.split sep r); discriminate.
Qed.

Lemma split_free (s : string) : Forall (free_of sep) (Js.split sep s).
Proof.
  induction s as [|c r IH]; simpl.
  - repeat constructor. intros [].
  - destruct (Ascii.eqb_spec c sep) as [->|Hne].
    + constructor; [intros [] | exact IH].
    + destruct (Js.split sep r) as [|h t].
      * repeat constructor. apply free_of_cons. split; [exact Hne | intros []].
      * inversion IH; subst. constructor; [|assumption].
        apply free_of_cons. now split.
Qed.

Lemma split_append_free (p rest : string) :
  free_of sep p -> Js.split sep (p +:+ String sep rest) = p :: Js.split sep rest.
Proof.
  induction p as [|c p IH]; intros Hfree.
  - change ("" +:+ String sep rest) with (String sep rest). simpl.
    now rewrite Ascii.eqb_refl.
  - apply free_of_cons in Hfree as [Hne Hfree].
    rewrite append_cons. simpl.
    apply Ascii.eqb_neq in Hne. rewrite Hne, (IH Hfree). reflexivity.
Qed.

Lemma split_free_single (p : string) :
  free_of sep p -> Js.split sep p = [p].
Proof.
  induction p as [|c p IH]; intros Hfree; [reflexivity|].
  apply free_of_cons in Hfree as [Hne Hfree]. simpl.
  apply Ascii.eqb_neq in Hne. rewrite Hne, (IH Hfree). reflexivity.
Qed.

Lemma join_cons_char (c : ascii) (h : string) (t : list string) :
  Js.join (String sep "") (String c h :: t)
  = String c (Js.join (String sep "") (h :: t)).
Proof. destruct t; reflexivity. Qed.

(** Joining what [split] produced gives the string back. *)
Lemma join_split (s : string) : Js.join (String sep "") (Js.split sep s) = s.
Proof.
  induction s as [|c r IH]; [reflexivity|]. simpl.
  destruct (Ascii.eqb_spec c sep) as [->|Hne].
  - pose proof (split_nonempty r) as Hnil.
    destruct (Js.split sep r) as [|h t]; [congruence|].
    change (Js.join (String sep "") ("" :: h :: t))
      with (String sep (Js.join (String sep "") (h :: t))).
    now rewrite IH.
  - pose proof (split_nonempty r) as Hnil.
    destruct (Js.split sep r) as [|h t]; [congruence|].
    rewrite join_cons_char. now rewrite IH.
Qed.

(** Splitting a join of separator-free lines gives the lines back. *)
Lemma split_join (lines : list string) :
  lines <> [] -> Forall (free_of sep) lines ->
  Js.split sep (Js.join (String sep "") lines) = lines.
Proof.
  induction lines as [|x rest IH]; intros Hne Hfree; [congruence|].
  inversion Hfree as [|? ? Hx Hrest]; subst.
  destruct rest as [|y rest'].
  - simpl. now apply split_free_single.
  - change (Js.join (String sep "") (x :: y :: rest'))
      with (x +:+ String sep (Js.join (String sep "") (y :: rest'))).
    rewrite (split_append_free _ _ Hx). f_equal.
    apply IH; [discriminate | assumption].
Qed.

End SplitJoin.

Lemma free_of_indent (line : string) :
  free_of Js.LF line -> free_of Js.LF (indent line).
Proof.
  unfold indent. intros Hfree.
  change ("  " +:+ line) with (String " " (String " " line)).
  apply free_of_cons; split; [discriminate|].
  apply free_of_cons; split; [discriminate | exact Hfree].
Qed.

(** The lines of the indented text are the lines of the text, each behind
    two spaces, in the same order. *)
Lemma indentedContent_lines (logContent : string) :
  Js.split Js.LF (Cleanup.indentedContent logContent)
  = map indent (Js.split Js.LF logContent).
Proof.
  unfold Cleanup.indentedContent. apply split_join.
  - pose proof (split_nonempty Js.LF logContent) as Hne.
    destruct (Js.split Js.LF logContent); [congruence | discriminate].
  - pose proof (split_free Js.LF logContent) as Hfree.
    induction Hfree as [|l ls Hl _ IH]; constructor; [|exact IH].
    now apply free_of_indent.
Qed.

(** * The launch phase *)

Section LaunchRuns.
Import Launch.

(** ** The schema accepts the environment the launcher builds *)

Lemma object_check_serverEnvData port token sp spath :
  object_check ServerEnvSchema (serverEnvData port token sp spath)
  = ([], validated port token sp spath).
Proof.
  unfold serverEnvData, validated, insert_truthy, ServerEnvSchema, object_check.
  destruct sp, spath; simpl Js.truthy; cbv iota; simpl_map; reflexivity.
Qed.

Lemma parse_serverEnvData o port token sp spath :
  ServerEnvSchema_parse o (serverEnvData port token sp spath)
  = mret (validated port token sp spath).
Proof. unfold ServerEnvSchema_parse. now rewrite object_check_serverEnvData. Qed.

Lemma validated_lookup_token port token sp spath :
  validated port token sp spath !! "TURBO_TOKEN" = Some token.
Proof. unfold validated. now simpl_map. Qed.

Lemma validated_lookup_provider port token sp spath :
  validated port token sp spath !! "STORAGE_PROVIDER"
  = if Js.truthy sp then Some sp else None.
Proof.
  unfold validated, insert_truthy.
  destruct (Js.truthy sp), (Js.truthy spath); now simpl_map.
Qed.

Lemma validated_lookup_path port token sp spath :
  validated port token sp spath !! "STORAGE_PATH"
  = if Js.truthy spath then Some spath else None.
Proof.
  unfold validated, insert_truthy.
  destruct (Js.truthy sp), (Js.truthy spath); now simpl_map.
Qed.

(** ** Walking a run, one collaborator answer at a time *)

Local Arguments serverEnvData : simpl never.
Local Arguments ServerEnvSchema_parse : simpl never.
Local Arguments validated : simpl never.
Local Arguments Js.or_else : simpl never.
Local Arguments Js.Number_toString : simpl never.
Local Arguments Js.Buffer_toString_hex : simpl never.
Local Arguments Js.template_number : simpl never.
Local Arguments union : simpl never.
Local Arguments insert : simpl never.
Local Arguments seq : simpl never.
Local Arguments map : simpl never.
Local Arguments pid_state : simpl never.

Ltac launch_unfold :=
  unfold startCacheServer, startCacheServer_body, mkdir, getPortPromise,
    randomBytes, getInput, exportVariable, spawn, unref, waitPort, saveState,
    info, setFailed, when, call, emit, throw, try_catch.

(** The next collaborator to answer, in program order. *)
Ltac answer :=
  lazymatch goal with
  | |- context [fs_mkdir ?o ?p ?r] =>
      destruct (fs_mkdir o p r) as [[]|?] eqn:?
  | |- context [portfinder_getPortPromise ?o] =>
      destruct (portfinder_getPortPromise o) as [?port|?] eqn:?
  | |- context [crypto_fault ?o] =>
      destruct (crypto_fault o) as [?|] eqn:?
  | |- context [core_exportVariable ?o "TURBO_API" ?v] =>
      destruct (core_exportVariable o "TURBO_API" v) as [[]|?] eqn:?
  | |- context [core_exportVariable ?o "TURBO_TOKEN" ?v] =>
      destruct (core_exportVariable o "TURBO_TOKEN" v) as [[]|?] eqn:?
  | |- context [core_exportVariable ?o "TURBO_TEAM" ?v] =>
      destruct (core_exportVariable o "TURBO_TEAM" v) as [[]|?] eqn:?
  | |- context [ServerEnvSchema_parse ?o (serverEnvData ?p ?t ?a ?b)] =>
      rewrite (parse_serverEnvData o p t a b)
  | |- context [child_process_spawn ?o ?c ?a ?e] =>
      destruct (child_process_spawn o c a e) as [?serverProcess|?] eqn:?
  | |- context [wait_port ?o ?w] =>
      destruct (wait_port o w) as [[[|]]|?] eqn:?
  | |- context [Js.truthy (input ?o "storage-provider")] =>
      destruct (Js.truthy (input o "storage-provider")) eqn:?
  | |- context [Js.truthy (input ?o "storage-path")] =>
      destruct (Js.truthy (input o "storage-path")) eqn:?
  | |- context [core_saveState ?o "serverPid" ?v] =>
      destruct (core_saveState o "serverPid" v) as [[]|?] eqn:?
  | |- context [core_saveState ?o "serverPort" ?v] =>
      destruct (core_saveState o "serverPort" v) as [[]|?] eqn:?
  end.

(** Name the run, then walk it; [fin] closes the cases a statement rules out. *)
Ltac launch_walk o fin :=
  unfold trace, completion;
  let tr := fresh "tr" in
  let c := fresh "c" in
  let Hrun := fresh "Hrun" in
  destruct (startCacheServer o) as [tr c] eqn:Hrun; simpl fst; simpl snd;
  revert Hrun; launch_unfold; cbn;
  repeat (answer; cbn; try solve [fin]).

Ltac cases_In H :=
  repeat match type of H with
         | _ \/ _ => destruct H as [H|H]
         | False => destruct H
         end.

(** C1. When the readiness poll answers that the port is closed, the phase
    signals one failure, whose message holds the allocated port number and
    "did not open within 30 seconds", and nothing is persisted: no
    [saveState] call is made. The poll is the one for the allocated port,
    with a 30000 ms bound. *)
Theorem launch_timeout_reports_failure o opts :
  In (opts, Normal {| open := false |}) (polls (trace (startCacheServer o))) ->
  wp_timeout opts = 30000%N /\
  allocations (trace (startCacheServer o)) = [Normal (wp_port opts)] /\
  completion (startCacheServer o) = Normal tt /\
  failures (trace (startCacheServer o))
  = [ "Failed to start Turborepo Remote Cache Server: " +:+
      "Port " +:+ Js.Number_toString (wp_port opts) +:+
      " did not open within 30 seconds" ] /\
  (forall m, In m (failures (trace (startCacheServer o))) ->
     includes m (Js.Number_toString (wp_port opts)) /\
     includes m "did not open within 30 seconds") /\
  saveState_calls (trace (startCacheServer o)) = [] /\
  persisted (trace (startCacheServer o)) = ∅.
Proof.
  launch_walk o ltac:(intros [= <- <-]; cbn; intuition congruence).
  intros [= <- <-]. cbn. intros [[= <-]|[]].
  cbn [wp_timeout wp_port].
  split; [reflexivity|]. split; [reflexivity|]. split; [reflexivity|].
  split; [reflexivity|]. split; [|split; reflexivity].
  intros m [<-|[]]. split.
  - exists "Failed to start Turborepo Remote Cache Server: Port ",
      " did not open within 30 seconds". reflexivity.
  - exists ("Failed to start Turborepo Remote Cache Server: Port "
              +:+ Js.Number_toString port +:+ " "), "".
    rewrite !append_assoc. reflexivity.
Qed.


(** ** Exceptions and the top-level handler *)

Lemma failures_app (tr1 tr2 : list Event) :
  failures (tr1 ++ tr2) = failures tr1 ++ failures tr2.
Proof. apply omap_app. Qed.

Lemma silent_ret {A : Type} (a : A) : silent (mret a).
Proof. reflexivity. Qed.

Lemma silent_throw {A : Type} (e : Thrown) : silent (@throw A e).
Proof. reflexivity. Qed.

Lemma silent_bind {A B : Type} (m : M A) (f : A -> M B) :
  silent m -> (forall a, silent (f a)) -> silent (m ≫= f).
Proof.
  unfold silent, trace. destruct m as [tr [a|e]]; simpl; intros Hm Hf; [|exact Hm].
  specialize (Hf a). destruct (f a) as [tr' r]. simpl in *.
  now rewrite failures_app, Hm, Hf.
Qed.

Lemma silent_when (b : bool) (m : M unit) : silent m -> silent (when b m).
Proof. destruct b; [trivial | intros _; reflexivity]. Qed.

Lemma silent_parse o data : silent (ServerEnvSchema_parse o data).
Proof.
  unfold ServerEnvSchema_parse.
  destruct (object_check ServerEnvSchema data) as [[|i issues] output]; reflexivity.
Qed.

Lemma startCacheServer_body_silent o : silent (startCacheServer_body o).
Proof.
  unfold startCacheServer_body.
  repeat (apply silent_bind; [|intros ?]);
    try apply silent_when; try apply silent_parse; reflexivity.
Qed.

(** What [try]/[catch] makes of a body. *)
Lemma try_catch_normal {A : Type} (body : M A) (handler : Thrown -> M A) (a : A) :
  completion body = Normal a -> try_catch body handler = body.
Proof. destruct body as [tr [a'|e]]; simpl; [reflexivity | discriminate]. Qed.

Lemma try_catch_throw {A : Type} (body : M A) (handler : Thrown -> M A) (e : Thrown) :
  completion body = Throw e ->
  trace (try_catch body handler) = trace body ++ trace (handler e) /\
  completion (try_catch body handler) = completion (handler e).
Proof.
  destruct body as [tr [a'|e']]; simpl; [discriminate|]. intros [= ->].
  now destruct (handler e).
Qed.

(** Inside the function no exception gets past the handler: whatever the
    [try] block throws, synchronously or through an awaited promise, the
    function itself completes normally, and the exception has become
    exactly one failure signal, the last call of the run, whose message
    is the exception's message behind
    "Failed to start Turborepo Remote Cache Server: ". A block that ends
    normally signals no failure. *)
Theorem launch_exceptions_become_one_failure o :
  completion (startCacheServer o) = Normal tt /\
  (forall error, completion (startCacheServer_body o) = Throw error ->
     trace (startCacheServer o)
     = trace (startCacheServer_body o)
         ++ [EvSetFailed ("Failed to start Turborepo Remote Cache Server: "
                            +:+ message_of error)] /\
     failures (trace (startCacheServer o))
     = ["Failed to start Turborepo Remote Cache Server: " +:+ message_of error]) /\
  (completion (startCacheServer_body o) = Normal tt ->
     startCacheServer o = startCacheServer_body o /\
     failures (trace (startCacheServer o)) = []).
Proof.
  pose proof (startCacheServer_body_silent o) as Hsilent.
  unfold startCacheServer.
  set (handler := fun error : Thrown => _).
  split; [|split].
  - destruct (completion (startCacheServer_body o)) as [[]|e] eqn:Hc.
    + now rewrite (try_catch_normal _ _ _ Hc).
    + now destruct (try_catch_throw _ handler _ Hc) as [_ ->].
  - intros error Hc.
    destruct (try_catch_throw _ handler _ Hc) as [Htr _].
    rewrite Htr. split; [reflexivity|].
    rewrite failures_app, Hsilent. reflexivity.
  - intros Hc. rewrite (try_catch_normal _ _ _ Hc). now split.
Qed.

(** ** A child that cannot be started *)

(** Without an ['error'] event of the child, the process does what the
    function does. *)
Lemma launch_process_without_event o :
  child_error_event o = None ->
  launch_process o
  = (trace (startCacheServer o), Returned (completion (startCacheServer o))).
Proof. intros Hev. unfold launch_process. now rewrite Hev. Qed.

(** Up to the readiness poll a run that spawned has signalled nothing and
    persisted nothing; its last call is [unref]. *)
Lemma launch_before_poll o options serverProcess :
  In (options, Normal serverProcess) (spawns (trace (startCacheServer o))) ->
  spawns (trace (startCacheServer o)) = [(options, Normal serverProcess)] /\
  failures (before_poll (trace (startCacheServer o))) = [] /\
  saveState_calls (before_poll (trace (startCacheServer o))) = [] /\
  infos (before_poll (trace (startCacheServer o))) = [] /\
  last (before_poll (trace (startCacheServer o))) = Some EvUnref.
Proof.
  launch_walk o
    ltac:(intros [= <- <-]; cbn; intros H; cases_In H; simplify_eq;
          repeat split; reflexivity).
Qed.

(** C2. Not every failure of the launch phase becomes a failure signal.
    When [spawn] returned a handle and the child then emits ['error']
    (the command could not be started: [spawn npx ENOENT]), the error is
    not caught by the [try] block: the process ends with the error
    uncaught, after [unref] and before the readiness poll answers, and it
    has called [setFailed] not once, so no message with the prefix
    "Failed to start Turborepo Remote Cache Server: " exists; nothing is
    reported and nothing is persisted. *)
Theorem launch_spawn_error_is_not_reported o error options serverProcess :
  child_error_event o = Some error ->
  In (options, Normal serverProcess) (spawns (trace (startCacheServer o))) ->
  snd (launch_process o) = Uncaught error /\
  failures (fst (launch_process o)) = [] /\
  saveState_calls (fst (launch_process o)) = [] /\
  infos (fst (launch_process o)) = [] /\
  last (fst (launch_process o)) = Some EvUnref.
Proof.
  intros Hev Hin.
  destruct (launch_before_poll o options serverProcess Hin)
    as (Hsp & Hf & Hs & Hi & Hl).
  unfold launch_process. rewrite Hev, Hsp. cbn [fst snd].
  repeat split; assumption.
Qed.

(** ** The schema *)

(** C9. The object the launcher builds always holds [PORT] and
    [TURBO_TOKEN] as strings, the schema finds no issue in it, so
    [ServerEnvSchema.parse] returns (it never throws), with the same keys;
    in a run, once the three variables are published the spawn call
    follows: the step in between cannot fail. *)
Theorem launch_schema_validation_never_fails o port token storageProvider storagePath :
  let data := serverEnvData port token storageProvider storagePath in
  data !! "PORT" = Some (Js.Str (Js.Number_toString port)) /\
  data !! "TURBO_TOKEN" = Some (Js.Str token) /\
  fst (object_check ServerEnvSchema data) = [] /\
  ServerEnvSchema_parse o data
  = ([], Normal (validated port token storageProvider storagePath)) /\
  (forall v, In ("TURBO_TEAM", v, Normal tt) (exports (trace (startCacheServer o))) ->
     exists options out, spawns (trace (startCacheServer o)) = [(options, out)]).
Proof.
  intros data. split; [|split; [|split; [|split]]].
  - unfold data, serverEnvData.
    destruct (Js.truthy storageProvider), (Js.truthy storagePath); now simpl_map.
  - unfold data, serverEnvData.
    destruct (Js.truthy storageProvider), (Js.truthy storagePath); now simpl_map.
  - unfold data. now rewrite object_check_serverEnvData.
  - apply parse_serverEnvData.
  - clear data. intros v.
    launch_walk o ltac:(intros [= <- <-]; cbn; first [intuition congruence | eauto]).
Qed.


(** ** What is published *)

Lemma or_else_input_default o name d :
  inputs o !! name = None \/ inputs o !! name = Some "" ->
  Js.or_else (input o name) d = d.
Proof. unfold input. now intros [-> | ->]. Qed.

Lemma or_else_input_given o name d v :
  inputs o !! name = Some v -> v <> "" -> Js.or_else (input o name) d = v.
Proof. unfold input. intros -> Hv. destruct v; [congruence | reflexivity]. Qed.

Lemma launch_exports o p :
  In (Normal p) (allocations (trace (startCacheServer o))) ->
  let host := Js.or_else (input o "host") "http://127.0.0.1" in
  let teamId := Js.or_else (input o "team-id") "ci" in
  let turboApi := host +:+ ":" +:+ Js.Number_toString p in
  (forall v out, In ("TURBO_API", v, out) (exports (trace (startCacheServer o))) ->
     v = turboApi) /\
  (forall v out, In ("TURBO_TEAM", v, out) (exports (trace (startCacheServer o))) ->
     v = teamId) /\
  (spawns (trace (startCacheServer o)) <> [] ->
     exists token,
       published (trace (startCacheServer o))
       = [("TURBO_API", turboApi); ("TURBO_TOKEN", token); ("TURBO_TEAM", teamId)]).
Proof.
  launch_walk o
    ltac:(intros [= <- <-]; cbn; intros Hp;
          first [ destruct Hp as [Hp|[]];
                  first [discriminate Hp | injection Hp as <-]
                | destruct Hp ];
          (split; [|split]); intros;
          solve [intuition congruence | congruence | eexists; reflexivity]).
Qed.

(** Once the port is allocated and the token drawn, the first variable is
    handed to [exportVariable]; a job environment that takes the
    variables ends up with the three of them. *)
Lemma launch_publishes o p :
  In (Normal p) (allocations (trace (startCacheServer o))) ->
  crypto_fault o = None ->
  let host := Js.or_else (input o "host") "http://127.0.0.1" in
  let teamId := Js.or_else (input o "team-id") "ci" in
  let turboApi := host +:+ ":" +:+ Js.Number_toString p in
  (exists out,
     hd_error (exports (trace (startCacheServer o))) = Some ("TURBO_API", turboApi, out)) /\
  ((forall name value, core_exportVariable o name value = Normal tt) ->
   published (trace (startCacheServer o))
   = [ ("TURBO_API", turboApi);
       ("TURBO_TOKEN", Js.Buffer_toString_hex (map (entropy o) (seq 0 32)));
       ("TURBO_TEAM", teamId) ]).
Proof.
  launch_walk o
    ltac:(intros [= <- <-]; cbn; intros Hp Hcrypto;
          first [ congruence
                | first [ destruct Hp as [Hp|[]];
                          first [discriminate Hp | injection Hp as <-]
                        | destruct Hp ];
                  (split;
                   [ eexists; reflexivity
                   | intros Hexp;
                     first [ reflexivity
                           | match goal with
                             | H : core_exportVariable _ _ _ = Throw _ |- _ =>
                                 rewrite Hexp in H; discriminate H
                             end ] ]) ]).
Qed.

(** C3. In a run that allocated port [p], with [host] the host input
    (or "http://127.0.0.1" when it is empty or not given) and [teamId] the
    team-id input (or "ci"): once the token is drawn the run hands
    [TURBO_API] = [host:p] to [exportVariable] first, and when the job
    environment takes the variables the published ones are exactly
    [TURBO_API] = [host:p], [TURBO_TOKEN] = the token and [TURBO_TEAM] =
    [teamId], in this order. Every [TURBO_API] the run exports is exactly
    [host:p] and every [TURBO_TEAM] is [teamId]; a run that reaches the
    spawn has published the three. *)
Theorem launch_publishes_api_and_team o p :
  In (Normal p) (allocations (trace (startCacheServer o))) ->
  let host := Js.or_else (input o "host") "http://127.0.0.1" in
  let teamId := Js.or_else (input o "team-id") "ci" in
  let turboApi := host +:+ ":" +:+ Js.Number_toString p in
  ((inputs o !! "host" = None \/ inputs o !! "host" = Some "" ->
    host = "http://127.0.0.1") /\
   (forall h, inputs o !! "host" = Some h -> h <> "" -> host = h) /\
   (inputs o !! "team-id" = None \/ inputs o !! "team-id" = Some "" ->
    teamId = "ci") /\
   (forall t, inputs o !! "team-id" = Some t -> t <> "" -> teamId = t)) /\
  (crypto_fault o = None ->
   (exists out,
      hd_error (exports (trace (startCacheServer o)))
      = Some ("TURBO_API", turboApi, out)) /\
   ((forall name value, core_exportVariable o name value = Normal tt) ->
    published (trace (startCacheServer o))
    = [ ("TURBO_API", turboApi);
        ("TURBO_TOKEN", Js.Buffer_toString_hex (map (entropy o) (seq 0 32)));
        ("TURBO_TEAM", teamId) ])) /\
  (forall v out, In ("TURBO_API", v, out) (exports (trace (startCacheServer o))) ->
     v = turboApi) /\
  (forall v out, In ("TURBO_TEAM", v, out) (exports (trace (startCacheServer o))) ->
     v = teamId) /\
  (spawns (trace (startCacheServer o)) <> [] ->
     exists token,
       published (trace (startCacheServer o))
       = [("TURBO_API", turboApi); ("TURBO_TOKEN", token); ("TURBO_TEAM", teamId)]).
Proof.
  intros Hp host teamId turboApi. split; [|split].
  - repeat split; intros.
    + now apply or_else_input_default.
    + now apply or_else_input_given.
    + now apply or_else_input_default.
    + now apply or_else_input_given.
  - intros Hcrypto. exact (launch_publishes o p Hp Hcrypto).
  - exact (launch_exports o p Hp).
Qed.

(** ** What is persisted *)

(** C4. A launch that signals no failure had its readiness confirmed and
    persisted exactly two keys: [serverPid], the decimal form of the
    child's pid or the empty string when the child has none, and
    [serverPort], the decimal form of the allocated port. Such is every
    launch whose readiness is confirmed, as long as the state store
    accepts the two writes. *)
Theorem launch_success_persists_pid_and_port o :
  (failures (trace (startCacheServer o)) = [] ->
   exists port serverProcess options,
     allocations (trace (startCacheServer o)) = [Normal port] /\
     spawns (trace (startCacheServer o)) = [(options, Normal serverProcess)] /\
     polls (trace (startCacheServer o))
     = [({| wp_host := "localhost"; wp_port := port; wp_timeout := 30000 |},
         Normal {| open := true |})] /\
     let serverPid :=
       match pid serverProcess with
       | Some n => Js.Number_toString n
       | None => ""
       end in
     saveState_calls (trace (startCacheServer o))
     = [("serverPid", serverPid); ("serverPort", Js.Number_toString port)] /\
     persisted (trace (startCacheServer o))
     = <["serverPort" := Js.Number_toString port]> (<["serverPid" := serverPid]> ∅) /\
     completion (startCacheServer o) = Normal tt) /\
  (forall opts,
     In (opts, Normal {| open := true |}) (polls (trace (startCacheServer o))) ->
     (forall name value, core_saveState o name value = Normal tt) ->
     failures (trace (startCacheServer o)) = []).
Proof.
  split.
  - launch_walk o
      ltac:(intros [= <- <-]; cbn; intros Hf;
            first [discriminate Hf
                  | eexists _, _, _; repeat split; reflexivity]).
  - intros opts.
    launch_walk o
      ltac:(intros [= <- <-]; cbn; intros Hin Hsave;
            first [ reflexivity
                  | solve [cases_In Hin; discriminate Hin]
                  | match goal with
                    | H : core_saveState _ _ _ = Throw _ |- _ =>
                        rewrite Hsave in H; discriminate H
                    end ]).
Qed.

(** ** The token *)

Lemma randomBytes_length o (size : nat) :
  length (map (entropy o) (seq 0 size)) = size.
Proof. now rewrite length_map, length_seq. Qed.

Lemma generated_token o :
  is_token (Js.Buffer_toString_hex (map (entropy o) (seq 0 32))).
Proof. apply hex_of_32_bytes_is_token, randomBytes_length. Qed.

(** C8. Whenever a run publishes [TURBO_TOKEN], the value is 64 lowercase
    hexadecimal characters: the hex form of the one 32-byte buffer the run
    drew from [randomBytes]. The child's environment carries a token of
    the same form. *)
Theorem launch_token_is_64_lower_hex o :
  (forall v out, In ("TURBO_TOKEN", v, out) (exports (trace (startCacheServer o))) ->
     is_token v /\
     exists buffer,
       buffers (trace (startCacheServer o)) = [(32, Normal buffer)] /\
       length buffer = 32 /\ v = Js.Buffer_toString_hex buffer) /\
  (forall options out, In (options, out) (spawns (trace (startCacheServer o))) ->
     exists v, env options !! "TURBO_TOKEN" = Some v /\ is_token v).
Proof.
  pose proof (generated_token o) as Htoken.
  pose proof (randomBytes_length o 32) as Hlen.
  launch_walk o
    ltac:(intros [= <- <-]; cbn;
          (split; [intros v out H | intros options out H]);
          cases_In H; simplify_eq;
          solve [ split; [exact Htoken|]; eexists;
                  split; [reflexivity | split; [exact Hlen | reflexivity]]
                | eexists; split; [|exact Htoken];
                  cbn [env]; apply lookup_union_Some_l, validated_lookup_token ]).
Qed.

(** ** The storage keys *)

Lemma child_env_storage_provider port token sp spath ambient :
  storage_key_rule "STORAGE_PROVIDER" sp ambient (validated port token sp spath ∪ ambient).
Proof.
  unfold storage_key_rule.
  rewrite lookup_union, validated_lookup_provider.
  destruct sp as [|c sp]; simpl Js.truthy; cbv iota.
  - rewrite (left_id_L None _). repeat split; try tauto; try congruence.
  - assert (Hl : Some (String c sp) ∪ ambient !! "STORAGE_PROVIDER" = Some (String c sp))
      by (destruct (ambient !! "STORAGE_PROVIDER"); reflexivity).
    rewrite Hl. repeat split; eauto; try congruence.
Qed.

Lemma child_env_storage_path port token sp spath ambient :
  storage_key_rule "STORAGE_PATH" spath ambient (validated port token sp spath ∪ ambient).
Proof.
  unfold storage_key_rule.
  rewrite lookup_union, validated_lookup_path.
  destruct spath as [|c spath]; simpl Js.truthy; cbv iota.
  - rewrite (left_id_L None _). repeat split; try tauto; try congruence.
  - assert (Hl : Some (String c spath) ∪ ambient !! "STORAGE_PATH" = Some (String c spath))
      by (destruct (ambient !! "STORAGE_PATH"); reflexivity).
    rewrite Hl. repeat split; eauto; try congruence.
Qed.

Lemma overlay_storage_keys port token sp spath :
  (is_Some (validated port token sp spath !! "STORAGE_PROVIDER") <-> sp <> "") /\
  (is_Some (validated port token sp spath !! "STORAGE_PATH") <-> spath <> "").
Proof.
  rewrite validated_lookup_provider, validated_lookup_path.
  destruct sp, spath; simpl; repeat split;
    intros; try congruence; try (eexists; reflexivity);
    match goal with H : is_Some None |- _ => destruct H; discriminate end.
Qed.

(** The run reads its inputs only through [input]. *)
Lemma startCacheServer_inputs o m :
  (forall name, default "" (m !! name) = input o name) ->
  startCacheServer (with_inputs o m) = startCacheServer o.
Proof.
  intros Hm.
  assert (Hin : forall name, input (with_inputs o m) name = input o name)
    by (intros name; apply Hm).
  unfold startCacheServer, startCacheServer_body, getInput.
  rewrite !Hin. reflexivity.
Qed.

Lemma spawned_environment o :
  forall options out, In (options, out) (spawns (trace (startCacheServer o))) ->
  exists port token turboApi teamId,
    env options
    = validated port token (input o "storage-provider") (input o "storage-path")
        ∪ <["TURBO_TEAM" := teamId]>
            (<["TURBO_TOKEN" := token]>
               (<["TURBO_API" := turboApi]> (process_env o))).
Proof.
  launch_walk o
    ltac:(intros [= <- <-]; cbn; intros options out H;
          cases_In H; simplify_eq; eexists _, _, _, _; reflexivity).
Qed.

(** The three published variables sit between the schema's keys and the
    environment the phase found. *)
Lemma published_over_ambient (overlay ambient : gmap string string) turboApi token teamId :
  overlay ∪ <["TURBO_TEAM" := teamId]>
              (<["TURBO_TOKEN" := token]> (<["TURBO_API" := turboApi]> ambient))
  = (overlay ∪ <["TURBO_TEAM" := teamId]>
                 (<["TURBO_TOKEN" := token]> (<["TURBO_API" := turboApi]> ∅)))
      ∪ ambient.
Proof.
  rewrite <- (assoc_L (∪)). f_equal.
  rewrite <- !insert_union_l. now rewrite (left_id_L ∅ (∪)).
Qed.

Lemma published_lookup_other (ambient : gmap string string) turboApi token teamId key :
  key <> "TURBO_API" -> key <> "TURBO_TOKEN" -> key <> "TURBO_TEAM" ->
  <["TURBO_TEAM" := teamId]>
    (<["TURBO_TOKEN" := token]> (<["TURBO_API" := turboApi]> ambient)) !! key
  = ambient !! key.
Proof. intros Ha Ht Hm. now rewrite !lookup_insert_ne by congruence. Qed.

Lemma ready_report o :
  failures (trace (startCacheServer o)) = [] ->
  drop 5 (infos (trace (startCacheServer o)))
  = (if Js.truthy (input o "storage-provider")
     then ["   Storage Provider: " +:+ input o "storage-provider"] else [])
    ++ (if Js.truthy (input o "storage-path")
        then ["   Storage Path: " +:+ input o "storage-path"] else []).
Proof.
  launch_walk o
    ltac:(intros [= <- <-]; cbn; intros Hf;
          first [discriminate Hf | reflexivity]).
Qed.

(** C10, as the code has it. The launcher overlays [STORAGE_PROVIDER] on
    the ambient environment if and only if the storage-provider input is
    a non-empty string, so in the child's environment the key is present
    if and only if the input is non-empty or the ambient environment
    already defines it: it holds the input when that is non-empty and the
    ambient value (if any) otherwise. Likewise [STORAGE_PATH]. After a
    launch that signals no failure, the report lines after the five fixed
    ones are the provider line, if that input is non-empty, then the path
    line, if that input is non-empty. The run of an empty-string input is
    the run of an absent one. *)
Theorem launch_storage_keys o :
  let storageProvider := input o "storage-provider" in
  let storagePath := input o "storage-path" in
  (forall options out, In (options, out) (spawns (trace (startCacheServer o))) ->
     exists overlay,
       env options = overlay ∪ process_env o /\
       (is_Some (overlay !! "STORAGE_PROVIDER") <-> storageProvider <> "") /\
       (is_Some (overlay !! "STORAGE_PATH") <-> storagePath <> "") /\
       storage_key_rule "STORAGE_PROVIDER" storageProvider (process_env o) (env options) /\
       storage_key_rule "STORAGE_PATH" storagePath (process_env o) (env options)) /\
  (failures (trace (startCacheServer o)) = [] ->
   drop 5 (infos (trace (startCacheServer o)))
   = (if Js.truthy storageProvider
      then ["   Storage Provider: " +:+ storageProvider] else [])
     ++ (if Js.truthy storagePath
         then ["   Storage Path: " +:+ storagePath] else [])) /\
  (forall name, inputs o !! name = Some "" ->
     startCacheServer (with_inputs o (delete name (inputs o))) = startCacheServer o).
Proof.
  intros storageProvider storagePath. split; [|split].
  - intros options out Hin.
    destruct (spawned_environment o options out Hin)
      as (port & token & turboApi & teamId & ->).
    eexists. split; [apply published_over_ambient|].
    destruct (overlay_storage_keys port token storageProvider storagePath) as [Hp Hs].
    split; [|split; [|split]].
    + rewrite lookup_union, published_lookup_other, lookup_empty by discriminate.
      now rewrite (right_id_L None (∪)).
    + rewrite lookup_union, published_lookup_other, lookup_empty by discriminate.
      now rewrite (right_id_L None (∪)).
    + pose proof (child_env_storage_provider port token storageProvider storagePath
                    (<["TURBO_TEAM" := teamId]>
                       (<["TURBO_TOKEN" := token]>
                          (<["TURBO_API" := turboApi]> (process_env o))))) as Hrule.
      unfold storage_key_rule in *.
      now rewrite published_lookup_other in Hrule by discriminate.
    + pose proof (child_env_storage_path port token storageProvider storagePath
                    (<["TURBO_TEAM" := teamId]>
                       (<["TURBO_TOKEN" := token]>
                          (<["TURBO_API" := turboApi]> (process_env o))))) as Hrule.
      unfold storage_key_rule in *.
      now rewrite published_lookup_other in Hrule by discriminate.
  - apply ready_report.
  - intros name Hname. apply startCacheServer_inputs. intros name'. unfold input.
    destruct (decide (name = name')) as [<-|Hne].
    + now rewrite lookup_delete_eq, Hname.
    + now rewrite lookup_delete_ne.
Qed.


(** ** More on the launch phase *)

Lemma validated_lookup_port port token sp spath :
  validated port token sp spath !! "PORT" = Some (Js.Number_toString port).
Proof. unfold validated. now simpl_map. Qed.

Lemma validated_lookup_other port token sp spath key :
  ~ In key schema_keys -> validated port token sp spath !! key = None.
Proof.
  unfold schema_keys. simpl. intros Hkey.
  unfold validated, insert_truthy.
  destruct (Js.truthy sp), (Js.truthy spath);
    repeat (rewrite lookup_insert_ne by (intros <-; tauto));
    apply lookup_empty.
Qed.

Lemma spawn_call_shape o command args options out :
  In (command, args, options, out) (spawn_calls (trace (startCacheServer o))) ->
  command = "npx" /\ args = ["turborepo-remote-cache"] /\
  detached options = true /\ stdio options = "ignore" /\
  exists port token,
    allocations (trace (startCacheServer o)) = [Normal port] /\
    published (trace (startCacheServer o))
    = [ ("TURBO_API", Js.or_else (input o "host") "http://127.0.0.1"
                        +:+ ":" +:+ Js.Number_toString port);
        ("TURBO_TOKEN", token);
        ("TURBO_TEAM", Js.or_else (input o "team-id") "ci") ] /\
    env options
    = validated port token (input o "storage-provider") (input o "storage-path")
        ∪ <["TURBO_TEAM" := Js.or_else (input o "team-id") "ci"]>
            (<["TURBO_TOKEN" := token]>
               (<["TURBO_API" := Js.or_else (input o "host") "http://127.0.0.1"
                                   +:+ ":" +:+ Js.Number_toString port]>
                  (process_env o))).
Proof.
  launch_walk o
    ltac:(intros [= <- <-]; cbn; intros H; cases_In H; simplify_eq;
          (do 4 (split; [reflexivity|]));
          eexists _, _; repeat split; reflexivity).
Qed.

(** X1. Every spawn of a run is [npx turborepo-remote-cache], detached,
    with stdio ignored, and comes after the three variables are published.
    The environment it hands to the child holds the allocated port under
    [PORT], under [TURBO_TOKEN] the very token the run published, and
    also the published [TURBO_API] and [TURBO_TEAM], which
    [exportVariable] put into [process.env]; every other key outside the
    schema comes from the environment the phase found, unchanged. *)
Theorem launch_spawns_the_cache_server o command args options out :
  In (command, args, options, out) (spawn_calls (trace (startCacheServer o))) ->
  command = "npx" /\ args = ["turborepo-remote-cache"] /\
  detached options = true /\ stdio options = "ignore" /\
  exists port token,
    let turboApi := Js.or_else (input o "host") "http://127.0.0.1"
                      +:+ ":" +:+ Js.Number_toString port in
    let teamId := Js.or_else (input o "team-id") "ci" in
    allocations (trace (startCacheServer o)) = [Normal port] /\
    published (trace (startCacheServer o))
    = [("TURBO_API", turboApi); ("TURBO_TOKEN", token); ("TURBO_TEAM", teamId)] /\
    env options !! "PORT" = Some (Js.Number_toString port) /\
    env options !! "TURBO_TOKEN" = Some token /\
    env options !! "TURBO_API" = Some turboApi /\
    env options !! "TURBO_TEAM" = Some teamId /\
    (forall key, ~ In key schema_keys ->
       key <> "TURBO_API" -> key <> "TURBO_TEAM" ->
       env options !! key = process_env o !! key).
Proof.
  intros Hin.
  destruct (spawn_call_shape o command args options out Hin)
    as (Hc & Ha & Hd & Hs & port & token & Hport & Hpub & Henv).
  do 4 (split; [assumption|]). exists port, token. cbv zeta.
  split; [exact Hport|]. split; [exact Hpub|]. rewrite Henv.
  split; [apply lookup_union_Some_l, validated_lookup_port|].
  split; [apply lookup_union_Some_l, validated_lookup_token|].
  split; [|split].
  - rewrite lookup_union_r
      by (apply validated_lookup_other; unfold schema_keys; simpl; intuition discriminate).
    rewrite lookup_insert_ne by discriminate.
    rewrite lookup_insert_ne by discriminate.
    apply lookup_insert_eq.
  - rewrite lookup_union_r
      by (apply validated_lookup_other; unfold schema_keys; simpl; intuition discriminate).
    apply lookup_insert_eq.
  - intros key Hkey Hapi Hteam.
    rewrite lookup_union_r by (apply validated_lookup_other, Hkey).
    apply published_lookup_other; [exact Hapi | | exact Hteam].
    intros ->. apply Hkey. unfold schema_keys. simpl. tauto.
Qed.

(** X2. A run polls at most once, always [localhost] (whatever the host
    input says), the allocated port, with a bound of 30000 ms, and only
    when it spawned the child. *)
Theorem launch_polls_localhost o opts out :
  In (opts, out) (polls (trace (startCacheServer o))) ->
  polls (trace (startCacheServer o)) = [(opts, out)] /\
  wp_host opts = "localhost" /\ wp_timeout opts = 30000%N /\
  allocations (trace (startCacheServer o)) = [Normal (wp_port opts)] /\
  exists options serverProcess,
    spawns (trace (startCacheServer o)) = [(options, Normal serverProcess)].
Proof.
  launch_walk o
    ltac:(intros [= <- <-]; cbn; intros H; cases_In H; simplify_eq;
          (do 4 (split; [reflexivity|])); eexists _, _; reflexivity).
Qed.

(** X3. Nothing is written to the state store without readiness: a run
    that attempts any [saveState] polled the port open, spawned the child
    and published the three variables, and writes nothing but [serverPid]
    and [serverPort]. *)
Theorem launch_persists_only_when_ready o :
  saveState_calls (trace (startCacheServer o)) <> [] ->
  exists opts options serverProcess port,
    polls (trace (startCacheServer o)) = [(opts, Normal {| open := true |})] /\
    spawns (trace (startCacheServer o)) = [(options, Normal serverProcess)] /\
    allocations (trace (startCacheServer o)) = [Normal port] /\
    length (published (trace (startCacheServer o))) = 3 /\
    (forall name value,
       In (name, value) (saveState_calls (trace (startCacheServer o))) ->
       (name, value) = ("serverPid", pid_state serverProcess) \/
       (name, value) = ("serverPort", Js.Number_toString port)).
Proof.
  launch_walk o
    ltac:(intros [= <- <-]; cbn; intros H;
          first [ congruence
                | eexists _, _, _, _; (do 4 (split; [reflexivity|]));
                  intros name value Hin; cases_In Hin; auto ]).
Qed.

(** X4. When no port can be allocated the run is three calls long: the
    log directory is made, the allocation fails, the failure is
    signalled with the allocator's message. No input is read, nothing is
    published, spawned, polled or persisted. *)
Theorem launch_without_port_stops_at_once o error :
  In (Throw error) (allocations (trace (startCacheServer o))) ->
  startCacheServer o
  = ([ EvMkdir "logs" true (Normal tt);
       EvGetPortPromise (Throw error);
       EvSetFailed ("Failed to start Turborepo Remote Cache Server: "
                      +:+ message_of error) ],
     Normal tt).
Proof.
  launch_walk o
    ltac:(intros [= <- <-]; cbn; intros H; cases_In H; simplify_eq; reflexivity).
Qed.


Lemma launch_input_reads o :
  (input_reads (trace (startCacheServer o)) = []
   \/ input_reads (trace (startCacheServer o)) = launch_inputs) /\
  (forall buffer, In (32, Normal buffer) (buffers (trace (startCacheServer o))) ->
     input_reads (trace (startCacheServer o)) = launch_inputs).
Proof.
  launch_walk o
    ltac:(intros [= <- <-]; cbn;
          (split; [auto | intros buffer H; cases_In H; simplify_eq; reflexivity])).
Qed.

(** X5. The inputs the launch asks [core.getInput] for are
    storage-provider, storage-path, team-id and host, in this order, once
    each, and nothing else: a run either fails before it reads any, or,
    once the token is drawn, reads exactly these four. The documented
    [port] input is never asked for. *)
Theorem launch_reads_four_inputs o :
  (input_reads (trace (startCacheServer o)) = []
   \/ input_reads (trace (startCacheServer o)) = launch_inputs) /\
  ~ In "port" (input_reads (trace (startCacheServer o))) /\
  (forall buffer, In (32, Normal buffer) (buffers (trace (startCacheServer o))) ->
     input_reads (trace (startCacheServer o)) = launch_inputs).
Proof.
  destruct (launch_input_reads o) as [Hreads Hdrawn].
  split; [exact Hreads|]. split; [|exact Hdrawn].
  destruct Hreads as [-> | ->]; [intros [] |].
  unfold launch_inputs. simpl. intuition discriminate.
Qed.

(** X6. A launch that signals no failure reports, first, the started
    line, then the pid ("undefined" when the child has none), the port,
    the API URL and the team, and at most two lines more. *)
Theorem launch_ready_report_head o :
  failures (trace (startCacheServer o)) = [] ->
  exists port serverProcess options,
    allocations (trace (startCacheServer o)) = [Normal port] /\
    spawns (trace (startCacheServer o)) = [(options, Normal serverProcess)] /\
    take 5 (infos (trace (startCacheServer o)))
    = [ "âœ… Turborepo Remote Cache Server started";
        "   PID: " +:+ match pid serverProcess with
                       | Some n => Js.Number_toString n
                       | None => "undefined"
                       end;
        "   Port: " +:+ Js.Number_toString port;
        "   API: " +:+ Js.or_else (input o "host") "http://127.0.0.1"
          +:+ ":" +:+ Js.Number_toString port;
        "   Team: " +:+ Js.or_else (input o "team-id") "ci" ] /\
    length (infos (trace (startCacheServer o))) <= 7.
Proof.
  launch_walk o
    ltac:(intros [= <- <-]; cbn; intros Hf;
          first [ discriminate Hf
                | eexists _, _, _; (do 2 (split; [reflexivity|]));
                  split; [reflexivity | simpl; lia] ]).
Qed.

(** X7. The two state writes are not atomic: when the write of
    [serverPort] is refused, [serverPid] is already persisted, alone, and
    the phase signals the refusal as its failure. *)
Theorem launch_port_write_refused o value error :
  In ("serverPort", value, Throw error) (state_writes (trace (startCacheServer o))) ->
  exists options serverProcess,
    spawns (trace (startCacheServer o)) = [(options, Normal serverProcess)] /\
    persisted (trace (startCacheServer o))
    = <["serverPid" := pid_state serverProcess]> ∅ /\
    failures (trace (startCacheServer o))
    = ["Failed to start Turborepo Remote Cache Server: " +:+ message_of error].
Proof.
  launch_walk o
    ltac:(intros [= <- <-]; cbn; intros H; cases_In H; simplify_eq;
          eexists _, _; repeat split; reflexivity).
Qed.

(** What a launch leaves in the state store. *)
Lemma launch_success_state o :
  failures (trace (startCacheServer o)) = [] ->
  exists options serverProcess,
    spawns (trace (startCacheServer o)) = [(options, Normal serverProcess)] /\
    persisted (trace (startCacheServer o)) !! "serverPid"
    = Some (pid_state serverProcess).
Proof.
  launch_walk o
    ltac:(intros [= <- <-]; cbn; intros Hf;
          first [ discriminate Hf
                | eexists _, _; split; [reflexivity | now simpl_map] ]).
Qed.

Lemma launch_closed_state o opts :
  In (opts, Normal {| open := false |}) (polls (trace (startCacheServer o))) ->
  persisted (trace (startCacheServer o)) = ∅ /\
  exists options serverProcess,
    spawns (trace (startCacheServer o)) = [(options, Normal serverProcess)].
Proof.
  launch_walk o
    ltac:(intros [= <- <-]; cbn; intros H; cases_In H; simplify_eq;
          (split; [reflexivity | eexists _, _; reflexivity])).
Qed.

End LaunchRuns.

(** * The schema, on any object *)

Section SchemaFacts.
Import Launch.

Lemma object_check_no_issue shape data :
  fst (object_check shape data) = [] <-> Forall (passes data) shape.
Proof.
  induction shape as [|[key t] shape IH]; simpl.
  - split; [constructor | reflexivity].
  - destruct (object_check shape data) as [issues output]. simpl in IH.
    unfold passes at 1. rewrite Forall_cons. simpl.
    destruct (check t (data !! key)) as [[s|]|[]]; simpl.
    + rewrite IH. split; [intros H; split; [eauto | exact H] | tauto].
    + rewrite IH. split; [intros H; split; [eauto | exact H] | tauto].
    + split; [discriminate | intros [[r Hr] _]; discriminate Hr].
Qed.

Lemma object_check_issue_paths shape data :
  Forall (fun i => In (issue_path i) (map fst shape)) (fst (object_check shape data)).
Proof.
  induction shape as [|[key t] shape IH]; simpl; [constructor|].
  destruct (object_check shape data) as [issues output]. simpl in IH.
  assert (Hrest : Forall (fun i => key = issue_path i \/ In (issue_path i) (map fst shape))
                    issues)
    by (eapply Forall_impl; [exact IH | simpl; tauto]).
  destruct (check t (data !! key)) as [[s|]|[]]; simpl; try exact Hrest.
  constructor; [simpl; tauto | exact Hrest].
Qed.

Lemma check_string_passes v :
  (exists r, check z_string v = inl r) <-> is_string v.
Proof.
  unfold is_string. split.
  - intros [r Hr]. destruct v as [[]|]; simpl in Hr; try discriminate. eauto.
  - intros [s ->]. simpl. eauto.
Qed.

Lemma check_optional_string_passes v :
  (exists r, check (z_optional z_string) v = inl r) <-> is_optional_string v.
Proof.
  unfold is_optional_string, is_string. split.
  - intros [r Hr]. destruct v as [[]|]; simpl in Hr; try discriminate; eauto.
  - intros [->|[->|[s ->]]]; simpl; eauto.
Qed.

Lemma schema_no_issue_iff data :
  fst (object_check ServerEnvSchema data) = [] <-> accepted data.
Proof.
  rewrite object_check_no_issue. unfold ServerEnvSchema, accepted.
  rewrite !Forall_cons, Forall_nil. unfold passes. cbn [fst snd].
  rewrite !check_string_passes, !check_optional_string_passes. tauto.
Qed.

Lemma schema_output data output :
  object_check ServerEnvSchema data = ([], output) ->
  forall key s, In key schema_keys ->
    (output !! key = Some s <-> data !! key = Some (Js.Str s)).
Proof.
  intros Hcheck.
  assert (Hacc : accepted data) by (apply schema_no_issue_iff; now rewrite Hcheck).
  destruct Hacc as ([p Hp] & [t Ht] & Hsp & Hspath).
  revert Hcheck. unfold object_check, ServerEnvSchema. rewrite Hp, Ht.
  unfold schema_keys.
  destruct Hsp as [Hsp|[Hsp|[sp Hsp]]], Hspath as [Hspath|[Hspath|[spath Hspath]]];
    rewrite Hsp, Hspath; simpl; intros [= <-];
    intros key s [<-|[<-|[<-|[<-|[]]]]]; simpl_map;
    rewrite ?Hp, ?Ht, ?Hsp, ?Hspath; split; congruence.
Qed.

(** X8. [ServerEnvSchema] finds no issue in an object exactly when
    [PORT] and [TURBO_TOKEN] are strings and each of [STORAGE_PROVIDER],
    [STORAGE_PATH] is absent, undefined or a string. [parse] then returns
    an object that agrees with the input on the four keys; otherwise it
    throws an error made of at least one issue, each about one of the
    four keys. *)
Theorem schema_accepts_iff o data :
  (fst (object_check ServerEnvSchema data) = [] <-> accepted data) /\
  (accepted data ->
   exists output,
     ServerEnvSchema_parse o data = ([], Normal output) /\
     forall key s, In key schema_keys ->
       (output !! key = Some s <-> data !! key = Some (Js.Str s))) /\
  (~ accepted data ->
   exists issues,
     issues <> [] /\
     ServerEnvSchema_parse o data = ([], Throw (ErrorObject (zod_message o issues))) /\
     Forall (fun i => In (issue_path i) schema_keys) issues).
Proof.
  split; [apply schema_no_issue_iff|]. split.
  - intros Hacc. apply schema_no_issue_iff in Hacc.
    unfold ServerEnvSchema_parse.
    destruct (object_check ServerEnvSchema data) as [issues output] eqn:Hcheck.
    simpl in Hacc. subst issues. exists output. split; [reflexivity|].
    now apply schema_output.
  - intros Hrej. rewrite <- schema_no_issue_iff in Hrej.
    pose proof (object_check_issue_paths ServerEnvSchema data) as Hpaths.
    unfold ServerEnvSchema_parse.
    destruct (object_check ServerEnvSchema data) as [[|i issues] output];
      simpl in *; [congruence|].
    exists (i :: issues). split; [discriminate|]. split; [reflexivity | exact Hpaths].
Qed.

End SchemaFacts.

(** * Decimal numerals: [toString] then [parseInt] *)

Section DecimalRoundTrip.

Lemma digits_value_cons (c : ascii) (r : string) (acc : option N) (v : N) :
  Js.digit_value 10 c = Some v ->
  Js.digits_value 10 acc (String c r)
  = Js.digits_value 10 (Some (default 0 acc * 10 + v)%N) r.
Proof. intros Hc. cbn [Js.digits_value]. now rewrite Hc. Qed.

Lemma digits_of_numeral (d : Decimal.uint) (acc : N) :
  Js.digits_value 10 (Some acc) (NilEmpty.string_of_uint d) = Some (uint_value d acc).
Proof.
  revert acc.
  induction d; intros acc; cbn [NilEmpty.string_of_uint uint_value];
    [reflexivity|..];
    erewrite digits_value_cons by reflexivity; apply IHd.
Qed.

Lemma uint_value_little_endian (d r : Decimal.uint) :
  uint_value d (Unsigned.of_lu r) = Unsigned.of_lu (Decimal.revapp d r).
Proof.
  revert r. induction d; intros r; simpl; try reflexivity;
    rewrite <- IHd; f_equal; simpl; lia.
Qed.

Lemma uint_value_of_uint (d : Decimal.uint) : uint_value d 0 = N.of_uint d.
Proof.
  change 0%N with (Unsigned.of_lu Decimal.Nil).
  rewrite uint_value_little_endian. unfold N.of_uint.
  now rewrite Unsigned.of_uint_alt.
Qed.

Lemma digits_from_nothing (d : Decimal.uint) :
  d <> Decimal.Nil ->
  Js.digits_value 10 None (NilEmpty.string_of_uint d)
  = Js.digits_value 10 (Some 0%N) (NilEmpty.string_of_uint d).
Proof. destruct d; [congruence | reflexivity..]. Qed.

Lemma to_uint_not_nil (n : N) : N.to_uint n <> Decimal.Nil.
Proof.
  destruct n as [|p]; [discriminate|]. apply Unsigned.to_uint_nonnil.
Qed.

(** A numeral goes through [parseInt] untouched by the white-space, sign
    and radix-prefix steps. *)
Lemma parseInt_numeral (d : Decimal.uint) :
  d <> Decimal.Nil ->
  Js.parseInt (NilEmpty.string_of_uint d)
  = match Js.digits_value 10 None (NilEmpty.string_of_uint d) with
    | Some n => Some (Z.of_N n)
    | None => None
    end.
Proof.
  intros Hd. destruct d as [|d|d|d|d|d|d|d|d|d|d]; try congruence; try reflexivity.
  destruct d; reflexivity.
Qed.

Lemma parseInt_Number_toString (n : N) :
  Js.parseInt (Js.Number_toString n) = Some (Z.of_N n).
Proof.
  unfold Js.Number_toString.
  pose proof (to_uint_not_nil n) as Hnil.
  assert (Hs : NilZero.string_of_uint (N.to_uint n)
               = NilEmpty.string_of_uint (N.to_uint n))
    by (destruct (N.to_uint n); [congruence | reflexivity..]).
  rewrite Hs, (parseInt_numeral _ Hnil), (digits_from_nothing _ Hnil).
  rewrite digits_of_numeral, uint_value_of_uint.
  now rewrite DecimalN.Unsigned.of_to.
Qed.

Lemma Number_toString_truthy (n : N) : Js.truthy (Js.Number_toString n) = true.
Proof.
  unfold Js.Number_toString.
  pose proof (to_uint_not_nil n) as Hnil.
  destruct (N.to_uint n); [congruence | reflexivity..].
Qed.

End DecimalRoundTrip.

(** * The cleanup phase *)

Section CleanupRuns.
Import Cleanup.

Lemma has_block_here {A : Type} (block rest : list A) : has_block block (block ++ rest).
Proof. now exists [], rest. Qed.

Lemma has_block_app_r {A : Type} (block before l : list A) :
  has_block block l -> has_block block (before ++ l).
Proof.
  intros (b & a & ->). exists (before ++ b), a. now rewrite <- app_assoc.
Qed.

Lemma has_block_app_l {A : Type} (block l after : list A) :
  has_block block l -> has_block block (l ++ after).
Proof.
  intros (b & a & ->). exists b, (a ++ after). now rewrite <- !app_assoc.
Qed.

Lemma reads_app (tr1 tr2 : list Event) : reads (tr1 ++ tr2) = reads tr1 ++ reads tr2.
Proof. apply omap_app. Qed.

Lemma kills_app (tr1 tr2 : list Event) : kills (tr1 ++ tr2) = kills tr1 ++ kills tr2.
Proof. apply omap_app. Qed.

(** ** Reading the state *)

Lemma getState_unset_or_empty o name :
  core_getState_fault o = None ->
  state o !! name = None \/ state o !! name = Some "" ->
  getState o name = ([EvGetState name (Normal "")], Normal "").
Proof. unfold getState, call. now intros -> [-> | ->]. Qed.

Lemma getState_given o name v :
  core_getState_fault o = None -> state o !! name = Some v ->
  getState o name = ([EvGetState name (Normal v)], Normal v).
Proof. unfold getState, call. now intros -> ->. Qed.

(** C5. With [serverPid] unset or empty in the state store, cleanup reads
    the state, reports that the server was not started, and is done: no
    signal is sent, no failure is signalled, nothing is thrown. *)
Theorem cleanup_without_pid_is_quiet o :
  core_getState_fault o = None ->
  state o !! "serverPid" = None \/ state o !! "serverPid" = Some "" ->
  cleanupCacheServer o
  = ([ EvGetState "serverPid" (Normal "");
       EvInfo "❌ Turborepo Remote Cache Server was not started or PID not found" ],
     Normal tt) /\
  kills (trace (cleanupCacheServer o)) = [] /\
  failures (trace (cleanupCacheServer o)) = [] /\
  completion (cleanupCacheServer o) = Normal tt.
Proof.
  intros Hfault Hpid.
  assert (Hrun : cleanupCacheServer o
                 = ([ EvGetState "serverPid" (Normal "");
                      EvInfo "❌ Turborepo Remote Cache Server was not started or PID not found" ],
                    Normal tt)).
  { unfold cleanupCacheServer.
    rewrite (getState_unset_or_empty o "serverPid" Hfault Hpid). reflexivity. }
  rewrite Hrun. repeat split.
Qed.

(** ** Stopping the server *)

Lemma stopServer_completes o serverPid :
  completion (stopServer o serverPid) = Normal tt /\
  failures (trace (stopServer o serverPid)) = [] /\
  reads (trace (stopServer o serverPid)) = [].
Proof.
  unfold stopServer, kill, call, info, emit, try_catch.
  destruct (process_kill o (Js.parseInt serverPid) "SIGTERM") as [[]|e];
    repeat split.
Qed.

Lemma stopServer_kill_fails o serverPid error :
  process_kill o (Js.parseInt serverPid) "SIGTERM" = Throw error ->
  stopServer o serverPid
  = ([ EvKill (Js.parseInt serverPid) "SIGTERM" (Throw error);
       EvInfo ("❌ Failed to stop server process " +:+ serverPid +:+ ": "
                 +:+ message_of error) ],
     Normal tt).
Proof. unfold stopServer, kill, call, info, emit, try_catch. now intros ->. Qed.

(** ** Displaying the logs *)

Lemma resume_cases o logFile :
  completion (displayLogFile_resume o logFile) = Normal tt /\
  failures (trace (displayLogFile_resume o logFile)) = [] /\
  kills (trace (displayLogFile_resume o logFile)) = [] /\
  reads (trace (displayLogFile_resume o logFile)) = [].
Proof.
  unfold displayLogFile_resume, try_catch, when, startGroup, info, endGroup, debug, emit.
  destruct (fs_readFile o logFile "utf8") as [logContent|e]; simpl.
  - destruct (Js.truthy (Js.trim logContent)); repeat split.
  - repeat split.
Qed.

Lemma resume_displays o logFile logContent :
  fs_readFile o logFile "utf8" = Normal logContent ->
  Js.trim logContent <> "" ->
  displayLogFile_resume o logFile
  = ([ EvStartGroup ("📋 " +:+ logFile);
       EvInfo (indentedContent logContent);
       EvEndGroup ], Normal tt).
Proof.
  intros Hread Htrim. apply truthy_true_iff in Htrim.
  unfold displayLogFile_resume, try_catch, when, startGroup, info, endGroup, emit.
  rewrite Hread. simpl. now rewrite Htrim.
Qed.

Lemma displayLogs_run o :
  let main := "logs/turborepo-remote-cache.log" in
  let errors := "logs/turborepo-remote-cache-error.log" in
  trace (displayLogs o)
  = [EvReadFile main "utf8"; EvReadFile errors "utf8"]
      ++ (if error_log_settles_first o
          then trace (displayLogFile_resume o errors)
                 ++ trace (displayLogFile_resume o main)
          else trace (displayLogFile_resume o main)
                 ++ trace (displayLogFile_resume o errors)) /\
  completion (displayLogs o) = Normal tt.
Proof.
  intros main errors.
  destruct (resume_cases o main) as (Hm & _).
  destruct (resume_cases o errors) as (He & _).
  unfold displayLogs, logFiles, displayLogFile_start, emit.
  fold main. fold errors.
  destruct (error_log_settles_first o); cbn [rev for_each app];
    fold main; fold errors;
    destruct (displayLogFile_resume o main) as [trm [[]|?]]; try discriminate Hm;
    destruct (displayLogFile_resume o errors) as [tre [[]|?]]; try discriminate He;
    simpl; rewrite ?app_nil_r; split; reflexivity.
Qed.

Lemma displayLogs_quiet o :
  reads (trace (displayLogs o)) = logFiles /\
  failures (trace (displayLogs o)) = [] /\
  kills (trace (displayLogs o)) = [].
Proof.
  destruct (displayLogs_run o) as [Hd _]. cbv zeta in Hd. rewrite Hd.
  destruct (resume_cases o "logs/turborepo-remote-cache.log") as (_ & Hf1 & Hk1 & Hr1).
  destruct (resume_cases o "logs/turborepo-remote-cache-error.log") as (_ & Hf2 & Hk2 & Hr2).
  destruct (error_log_settles_first o);
    rewrite !reads_app, !failures_app, !kills_app, Hf1, Hf2, Hk1, Hk2, Hr1, Hr2;
    repeat split.
Qed.

(** How a run that got past the state read and found a pid goes on. *)
Lemma cleanup_with_pid o serverPid :
  core_getState_fault o = None ->
  state o !! "serverPid" = Some serverPid -> serverPid <> "" ->
  trace (cleanupCacheServer o)
  = [EvGetState "serverPid" (Normal serverPid)]
      ++ trace (stopServer o serverPid) ++ trace (displayLogs o) /\
  completion (cleanupCacheServer o) = Normal tt.
Proof.
  intros Hfault Hpid Hne. apply truthy_true_iff in Hne.
  unfold cleanupCacheServer.
  rewrite (getState_given o "serverPid" serverPid Hfault Hpid).
  cbn [mbind M_bind]. rewrite Hne. cbn [negb].
  destruct (stopServer_completes o serverPid) as (Hs & _).
  destruct (displayLogs_run o) as [_ Hd].
  destruct (stopServer o serverPid) as [trs [[]|?]]; [|discriminate Hs].
  destruct (displayLogs o) as [trd [[]|?]]; [|discriminate Hd].
  split; reflexivity.
Qed.

(** A run that issued a file read had found a pid. *)
Lemma cleanup_reads o logFile :
  In logFile (reads (trace (cleanupCacheServer o))) ->
  In logFile logFiles /\
  exists before, trace (cleanupCacheServer o) = before ++ trace (displayLogs o).
Proof.
  destruct (core_getState_fault o) as [e|] eqn:Hfault.
  { unfold cleanupCacheServer, getState, call. rewrite Hfault. simpl. tauto. }
  destruct (state o !! "serverPid") as [[|c s]|] eqn:Hpid.
  - unfold cleanupCacheServer.
    rewrite (getState_unset_or_empty o "serverPid" Hfault (or_intror Hpid)).
    simpl. tauto.
  - assert (Hne : String c s <> "") by discriminate.
    destruct (cleanup_with_pid o _ Hfault Hpid Hne) as [-> _].
    destruct (stopServer_completes o (String c s)) as (_ & _ & Hr).
    destruct (displayLogs_quiet o) as (Hd & _).
    rewrite !reads_app, Hr, Hd. simpl. intros Hin. split; [exact Hin|].
    exists (EvGetState "serverPid" (Normal (String c s))
              :: trace (stopServer o (String c s))).
    reflexivity.
  - unfold cleanupCacheServer.
    rewrite (getState_unset_or_empty o "serverPid" Hfault (or_introl Hpid)).
    simpl. tauto.
Qed.

Lemma displayLogs_has_block o logFile logContent :
  In logFile logFiles ->
  fs_readFile o logFile "utf8" = Normal logContent ->
  Js.trim logContent <> "" ->
  has_block [ EvStartGroup ("📋 " +:+ logFile);
              EvInfo (indentedContent logContent);
              EvEndGroup ] (trace (displayLogs o)).
Proof.
  intros Hin Hread Htrim.
  assert (Hres : trace (displayLogFile_resume o logFile)
                 = [ EvStartGroup ("📋 " +:+ logFile);
                     EvInfo (indentedContent logContent);
                     EvEndGroup ])
    by now rewrite (resume_displays o logFile logContent Hread Htrim).
  destruct (displayLogs_run o) as [Hd _]. cbv zeta in Hd. rewrite Hd.
  apply has_block_app_r.
  destruct Hin as [<-|[<-|[]]]; destruct (error_log_settles_first o); rewrite Hres.
  - apply has_block_app_r. rewrite <- (app_nil_r [_; _; _]) at 2. apply has_block_here.
  - apply has_block_here.
  - apply has_block_here.
  - apply has_block_app_r. rewrite <- (app_nil_r [_; _; _]) at 2. apply has_block_here.
Qed.

(** C6, as the code has it. With a pid persisted and the signal failing
    with an exception, cleanup completes normally and signals no failure:
    after the state read and the failed [kill] it reports, through [info],
    the text "Failed to stop server process {pid}: {message}" behind the
    marker "❌ ", and goes on to issue the reads of the two log files. *)
Theorem cleanup_survives_kill_failure o serverPid error :
  core_getState_fault o = None ->
  state o !! "serverPid" = Some serverPid -> serverPid <> "" ->
  process_kill o (Js.parseInt serverPid) "SIGTERM" = Throw error ->
  completion (cleanupCacheServer o) = Normal tt /\
  failures (trace (cleanupCacheServer o)) = [] /\
  reads (trace (cleanupCacheServer o)) = logFiles /\
  exists rest,
    trace (cleanupCacheServer o)
    = [ EvGetState "serverPid" (Normal serverPid);
        EvKill (Js.parseInt serverPid) "SIGTERM" (Throw error);
        EvInfo ("❌ " +:+ "Failed to stop server process " +:+ serverPid +:+ ": "
                  +:+ message_of error);
        EvReadFile "logs/turborepo-remote-cache.log" "utf8";
        EvReadFile "logs/turborepo-remote-cache-error.log" "utf8" ] ++ rest.
Proof.
  intros Hfault Hpid Hne Hkill.
  destruct (cleanup_with_pid o serverPid Hfault Hpid Hne) as [Htr Hc].
  rewrite Htr, Hc, (stopServer_kill_fails o serverPid error Hkill).
  destruct (displayLogs_quiet o) as (Hr & Hf & _).
  destruct (displayLogs_run o) as [Hd _]. cbv zeta in Hd.
  split; [reflexivity|]. split; [|split].
  - rewrite !failures_app, Hf. reflexivity.
  - rewrite !reads_app, Hr. reflexivity.
  - rewrite Hd. eexists. reflexivity.
Qed.

(** C7. A log file that is read with content whose trimmed form is not
    empty is displayed as one group: [startGroup] with the file's path
    (behind the marker "📋 "), one [info] with the indented content,
    [endGroup]; a cleanup run that issued the read of that file has this
    group in its trace. The lines of the indented content are the lines of
    the content, each behind exactly two spaces, in the same order (blank
    lines included), and the lines of the content make up the content.
    The three lines "Line 1", "Line 2", "Line 3" come out as "  Line 1",
    "  Line 2", "  Line 3". *)
Theorem cleanup_displays_indented_log o logFile logContent :
  fs_readFile o logFile "utf8" = Normal logContent ->
  Js.trim logContent <> "" ->
  let group := [ EvStartGroup ("📋 " +:+ logFile);
                 EvInfo (indentedContent logContent);
                 EvEndGroup ] in
  trace (displayLogFile o logFile) = EvReadFile logFile "utf8" :: group /\
  (In logFile (reads (trace (cleanupCacheServer o))) ->
   has_block group (trace (cleanupCacheServer o))) /\
  Js.split Js.LF (indentedContent logContent)
  = map (fun line => "  " +:+ line) (Js.split Js.LF logContent) /\
  Js.join (String Js.LF "") (Js.split Js.LF logContent) = logContent /\
  indentedContent Scenario.three_lines = Scenario.three_lines_indented.
Proof.
  intros Hread Htrim group.
  pose proof (resume_displays o logFile logContent Hread Htrim) as Hres.
  split; [|split; [|split; [|split]]].
  - unfold displayLogFile, displayLogFile_start, emit. rewrite Hres. reflexivity.
  - intros Hin. destruct (cleanup_reads o logFile Hin) as (Hfile & before & ->).
    apply has_block_app_r.
    now apply displayLogs_has_block.
  - apply indentedContent_lines.
  - apply join_split.
  - reflexivity.
Qed.

End CleanupRuns.

(** * More on the cleanup phase *)

Section CleanupOutcomes.
Import Cleanup.

Lemma groups_app (tr1 tr2 : list Event) : groups (tr1 ++ tr2) = groups tr1 ++ groups tr2.
Proof. apply omap_app. Qed.

Lemma debugs_app (tr1 tr2 : list Event) : debugs (tr1 ++ tr2) = debugs tr1 ++ debugs tr2.
Proof. apply omap_app. Qed.

Lemma group_ends_app (tr1 tr2 : list Event) :
  group_ends (tr1 ++ tr2) = group_ends tr1 + group_ends tr2.
Proof. unfold group_ends. now rewrite omap_app, length_app. Qed.

Lemma infos_app (tr1 tr2 : list Event) : infos (tr1 ++ tr2) = infos tr1 ++ infos tr2.
Proof. apply omap_app. Qed.

(** The state cannot be read: the only failure of the phase. *)
Lemma cleanup_state_fault o error :
  core_getState_fault o = Some error ->
  cleanupCacheServer o
  = ([ EvGetState "serverPid" (Throw error);
       EvSetFailed ("Error in post action: " +:+ message_of error) ],
     Normal tt).
Proof.
  intros Hfault. unfold cleanupCacheServer, getState, call. now rewrite Hfault.
Qed.

Lemma cleanup_state_read_is_quiet o :
  core_getState_fault o = None ->
  completion (cleanupCacheServer o) = Normal tt /\
  failures (trace (cleanupCacheServer o)) = [].
Proof.
  intros Hfault.
  destruct (state o !! "serverPid") as [[|c s]|] eqn:Hpid.
  - unfold cleanupCacheServer.
    rewrite (getState_unset_or_empty o "serverPid" Hfault (or_intror Hpid)).
    split; reflexivity.
  - assert (Hne : String c s <> "") by discriminate.
    destruct (cleanup_with_pid o _ Hfault Hpid Hne) as [-> ->].
    destruct (stopServer_completes o (String c s)) as (_ & Hs & _).
    destruct (displayLogs_quiet o) as (_ & Hd & _).
    split; [reflexivity|]. now rewrite !failures_app, Hs, Hd.
  - unfold cleanupCacheServer.
    rewrite (getState_unset_or_empty o "serverPid" Hfault (or_introl Hpid)).
    split; reflexivity.
Qed.

(** X9. Cleanup never throws, and a failed read of the state is its only
    failure: it signals none when the state can be read, whatever the
    signal and the log reads do, and when the read throws it signals
    "Error in post action: " and the message, sends no signal and reads
    no log. *)
Theorem cleanup_fails_only_on_state_read o :
  completion (cleanupCacheServer o) = Normal tt /\
  (failures (trace (cleanupCacheServer o)) = [] <-> core_getState_fault o = None) /\
  (forall error, core_getState_fault o = Some error ->
     cleanupCacheServer o
     = ([ EvGetState "serverPid" (Throw error);
          EvSetFailed ("Error in post action: " +:+ message_of error) ],
        Normal tt)).
Proof.
  destruct (core_getState_fault o) as [e|] eqn:Hfault.
  - rewrite (cleanup_state_fault o e Hfault).
    split; [reflexivity|]. split; [split; discriminate|].
    now intros error [= <-].
  - destruct (cleanup_state_read_is_quiet o Hfault) as [Hc Hf].
    split; [exact Hc|]. split; [tauto | discriminate].
Qed.

Lemma stopServer_run o serverPid :
  trace (stopServer o serverPid)
  = [ EvKill (Js.parseInt serverPid) "SIGTERM"
        (process_kill o (Js.parseInt serverPid) "SIGTERM");
      EvInfo (match process_kill o (Js.parseInt serverPid) "SIGTERM" with
              | Normal _ =>
                  "✅ Turborepo Remote Cache Server stopped (PID: " +:+ serverPid +:+ ")"
              | Throw error =>
                  "❌ Failed to stop server process " +:+ serverPid +:+ ": "
                    +:+ message_of error
              end) ].
Proof.
  unfold stopServer, kill, call, info, emit, try_catch.
  destruct (process_kill o (Js.parseInt serverPid) "SIGTERM") as [[]|e]; reflexivity.
Qed.

(** X10. With a pid in the state, cleanup sends [SIGTERM] exactly once, to
    [parseInt] of the persisted text, and then issues the reads of the
    two logs, main log first, whether or not the signal was delivered;
    when it was, the first report is the stopped line with the pid. *)
Theorem cleanup_signals_once o serverPid :
  core_getState_fault o = None ->
  state o !! "serverPid" = Some serverPid -> serverPid <> "" ->
  kills (trace (cleanupCacheServer o)) = [(Js.parseInt serverPid, "SIGTERM")] /\
  reads (trace (cleanupCacheServer o)) = logFiles /\
  (process_kill o (Js.parseInt serverPid) "SIGTERM" = Normal tt ->
   hd_error (infos (trace (cleanupCacheServer o)))
   = Some ("✅ Turborepo Remote Cache Server stopped (PID: " +:+ serverPid +:+ ")")) /\
  exists rest,
    trace (cleanupCacheServer o)
    = EvGetState "serverPid" (Normal serverPid)
        :: trace (stopServer o serverPid)
        ++ [ EvReadFile "logs/turborepo-remote-cache.log" "utf8";
             EvReadFile "logs/turborepo-remote-cache-error.log" "utf8" ]
        ++ rest /\
    kills rest = [] /\ reads rest = [].
Proof.
  intros Hfault Hpid Hne.
  destruct (cleanup_with_pid o serverPid Hfault Hpid Hne) as [Htr _].
  destruct (displayLogs_quiet o) as (Hr & _ & Hk).
  destruct (displayLogs_run o) as [Hd _]. cbv zeta in Hd.
  rewrite Htr. split; [|split; [|split]].
  - rewrite !kills_app, Hk, stopServer_run. reflexivity.
  - rewrite !reads_app, Hr, stopServer_run. reflexivity.
  - intros Hkill. rewrite !infos_app, stopServer_run, Hkill. reflexivity.
  - rewrite Hd in *. eexists. split; [reflexivity|].
    rewrite kills_app, reads_app in *. unfold logFiles in Hr. simpl in Hk, Hr.
    split; [exact Hk | congruence].
Qed.

Lemma resume_outcome o logFile :
  groups (trace (displayLogFile_resume o logFile)) = option_list (group_of o logFile) /\
  debugs (trace (displayLogFile_resume o logFile)) = option_list (diagnostic_of o logFile) /\
  group_ends (trace (displayLogFile_resume o logFile))
  = length (option_list (group_of o logFile)).
Proof.
  unfold displayLogFile_resume, group_of, diagnostic_of,
    try_catch, when, startGroup, info, endGroup, debug, emit.
  destruct (fs_readFile o logFile "utf8") as [logContent|e]; simpl.
  - destruct (Js.truthy (Js.trim logContent)); repeat split.
  - repeat split.
Qed.

(** X11. With a pid in the state, the groups cleanup opens are those of
    the logs that were read with content that is not blank, in the order
    the reads settled; the diagnostics are those of the logs that could
    not be read, in that order; every group opened is closed. A blank or
    unreadable log opens no group, and one log's outcome leaves the
    other's untouched. *)
Theorem cleanup_groups_and_diagnostics o serverPid :
  core_getState_fault o = None ->
  state o !! "serverPid" = Some serverPid -> serverPid <> "" ->
  groups (trace (cleanupCacheServer o)) = omap (group_of o) (settle_order o) /\
  debugs (trace (cleanupCacheServer o)) = omap (diagnostic_of o) (settle_order o) /\
  group_ends (trace (cleanupCacheServer o))
  = length (groups (trace (cleanupCacheServer o))).
Proof.
  intros Hfault Hpid Hne.
  destruct (cleanup_with_pid o serverPid Hfault Hpid Hne) as [Htr _].
  destruct (displayLogs_run o) as [Hd _]. cbv zeta in Hd.
  destruct (resume_outcome o "logs/turborepo-remote-cache.log") as (Hg1 & Hd1 & He1).
  destruct (resume_outcome o "logs/turborepo-remote-cache-error.log") as (Hg2 & Hd2 & He2).
  rewrite Htr, Hd, stopServer_run. unfold settle_order, logFiles.
  destruct (error_log_settles_first o);
    rewrite !groups_app, !debugs_app, !group_ends_app, Hg1, Hg2, Hd1, Hd2, He1, He2;
    cbn [rev app omap list_omap];
    destruct (group_of o "logs/turborepo-remote-cache.log"),
             (group_of o "logs/turborepo-remote-cache-error.log"),
             (diagnostic_of o "logs/turborepo-remote-cache.log"),
             (diagnostic_of o "logs/turborepo-remote-cache-error.log");
    repeat split.
Qed.

End CleanupOutcomes.

(** * What the display keeps *)

Section Indentation.

Lemma unindent_indent (lines : list string) : map unindent (map indent lines) = lines.
Proof. induction lines as [|l lines IH]; simpl; [reflexivity | now rewrite IH]. Qed.

(** X12. Indentation loses nothing: taking the first two characters off
    every displayed line gives the log back, the display has as many
    lines as the log, each starts with two spaces, and two logs with the
    same display are the same log. *)
Theorem indentation_round_trip (logContent : string) :
  Js.join (String Js.LF "")
    (map unindent (Js.split Js.LF (Cleanup.indentedContent logContent)))
  = logContent /\
  length (Js.split Js.LF (Cleanup.indentedContent logContent))
  = length (Js.split Js.LF logContent) /\
  Forall (fun line => exists rest, line = "  " +:+ rest)
    (Js.split Js.LF (Cleanup.indentedContent logContent)) /\
  (forall other, Cleanup.indentedContent other = Cleanup.indentedContent logContent ->
                 other = logContent).
Proof.
  assert (Hback : forall c,
             Js.join (String Js.LF "")
               (map unindent (Js.split Js.LF (Cleanup.indentedContent c))) = c)
    by (intros c; rewrite indentedContent_lines, unindent_indent; apply join_split).
  split; [apply Hback|]. rewrite indentedContent_lines. split; [|split].
  - apply length_map.
  - apply Forall_forall. intros line Hin. apply list_elem_of_In, in_map_iff in Hin.
    destruct Hin as (rest & <- & _). now exists rest.
  - intros other Heq. rewrite <- (Hback other), Heq. apply Hback.
Qed.

End Indentation.

(** * From launch to cleanup *)

Section HandoffRuns.
Import Launch Cleanup.

Lemma cleanup_not_started_run c :
  core_getState_fault c = None ->
  state c !! "serverPid" = None \/ state c !! "serverPid" = Some "" ->
  cleanupCacheServer c
  = ([ EvGetState "serverPid" (Normal "");
       EvInfo "❌ Turborepo Remote Cache Server was not started or PID not found" ],
     Normal tt).
Proof.
  intros Hfault Hpid. unfold cleanupCacheServer.
  now rewrite (getState_unset_or_empty c "serverPid" Hfault Hpid).
Qed.

Lemma cleanup_kills c serverPid :
  core_getState_fault c = None ->
  state c !! "serverPid" = Some serverPid -> serverPid <> "" ->
  kills (trace (cleanupCacheServer c)) = [(Js.parseInt serverPid, "SIGTERM")].
Proof.
  intros Hfault Hpid Hne.
  destruct (cleanup_with_pid c serverPid Hfault Hpid Hne) as [-> _].
  destruct (displayLogs_quiet c) as (_ & _ & Hk).
  rewrite !kills_app, Hk, stopServer_run. reflexivity.
Qed.

(** X13. The pid survives the hand-off: after a launch that signals no
    failure and whose child has pid [n], a cleanup that reads the state
    this launch persisted sends [SIGTERM] to [n], once, and to nothing
    else. *)
Theorem handoff_signals_the_spawned_pid o c options n :
  failures (trace (startCacheServer o)) = [] ->
  In (options, Normal {| pid := Some n |}) (spawns (trace (startCacheServer o))) ->
  core_getState_fault c = None ->
  kills (trace (cleanupCacheServer (after_launch (trace (startCacheServer o)) c)))
  = [(Some (Z.of_N n), "SIGTERM")].
Proof.
  intros Hok Hspawn Hfault.
  destruct (launch_success_state o Hok) as (options' & child & Hs & Hpid).
  rewrite Hs in Hspawn. destruct Hspawn as [[= -> ->]|[]].
  unfold pid_state in Hpid. cbn [pid] in Hpid.
  rewrite <- (parseInt_Number_toString n).
  apply cleanup_kills; [exact Hfault | exact Hpid |].
  apply truthy_true_iff, Number_toString_truthy.
Qed.

(** X14. After a launch that signals no failure but whose child has no
    pid, the persisted [serverPid] is empty and cleanup takes the server
    for not started: it sends no signal and reads no log. *)
Theorem handoff_without_pid o c options :
  failures (trace (startCacheServer o)) = [] ->
  In (options, Normal {| pid := None |}) (spawns (trace (startCacheServer o))) ->
  core_getState_fault c = None ->
  cleanupCacheServer (after_launch (trace (startCacheServer o)) c)
  = ([ EvGetState "serverPid" (Normal "");
       EvInfo "❌ Turborepo Remote Cache Server was not started or PID not found" ],
     Normal tt).
Proof.
  intros Hok Hspawn Hfault.
  destruct (launch_success_state o Hok) as (options' & child & Hs & Hpid).
  rewrite Hs in Hspawn. destruct Hspawn as [[= -> ->]|[]].
  apply cleanup_not_started_run; [exact Hfault | right; exact Hpid].
Qed.

(** X15. After a launch whose poll found the port closed, the child was
    spawned but nothing was persisted, so cleanup takes the server for
    not started: the spawned process is sent no signal. *)
Theorem handoff_after_timeout o c opts :
  In (opts, Normal {| open := false |}) (polls (trace (startCacheServer o))) ->
  core_getState_fault c = None ->
  (exists options serverProcess,
     spawns (trace (startCacheServer o)) = [(options, Normal serverProcess)]) /\
  cleanupCacheServer (after_launch (trace (startCacheServer o)) c)
  = ([ EvGetState "serverPid" (Normal "");
       EvInfo "❌ Turborepo Remote Cache Server was not started or PID not found" ],
     Normal tt).
Proof.
  intros Hclosed Hfault.
  destruct (launch_closed_state o opts Hclosed) as [Hstate Hspawn].
  split; [exact Hspawn|].
  apply cleanup_not_started_run; [exact Hfault|].
  left. cbn [after_launch state]. rewrite Hstate. apply lookup_empty.
Qed.

End HandoffRuns.

(** * The scenarios of the test suites, through the theorems *)

Section Witnesses.
Import Launch Cleanup.

Lemma launch_timeout_reports_failure_witness :
  let tr := trace (startCacheServer Scenario.port_stays_closed) in
  let opts := {| wp_host := "localhost"; wp_port := 3000; wp_timeout := 30000 |} in
  In (opts, Normal {| open := false |}) (polls tr) /\
  failures tr
  = ["Failed to start Turborepo Remote Cache Server: Port 3000 did not open within 30 seconds"] /\
  saveState_calls tr = [].
Proof.
  intros tr opts.
  assert (H : In (opts, Normal {| open := false |}) (polls tr))
    by (vm_compute; left; reflexivity).
  unfold tr in *.
  split; [exact H|].
  destruct (launch_timeout_reports_failure Scenario.port_stays_closed opts H)
    as (_ & _ & _ & Hf & _ & Hs & _).
  split; [exact Hf | exact Hs].
Defined.

Lemma launch_exceptions_become_one_failure_witness :
  completion (startCacheServer_body Scenario.no_ports_available)
  = Throw (ErrorObject "No ports available") /\
  completion (startCacheServer Scenario.no_ports_available) = Normal tt /\
  failures (trace (startCacheServer Scenario.no_ports_available))
  = ["Failed to start Turborepo Remote Cache Server: No ports available"].
Proof.
  assert (H : completion (startCacheServer_body Scenario.no_ports_available)
              = Throw (ErrorObject "No ports available")) by reflexivity.
  destruct (launch_exceptions_become_one_failure Scenario.no_ports_available)
    as (Hc & Hthrow & _).
  split; [exact H|]. split; [exact Hc|].
  exact (proj2 (Hthrow _ H)).
Defined.

Lemma launch_spawn_error_is_not_reported_witness :
  child_error_event Handoff.npx_missing = Some (ErrorObject "spawn npx ENOENT") /\
  (exists options,
     In (options, Normal {| pid := None |})
        (spawns (trace (startCacheServer Handoff.npx_missing)))) /\
  snd (launch_process Handoff.npx_missing) = Uncaught (ErrorObject "spawn npx ENOENT") /\
  failures (fst (launch_process Handoff.npx_missing)) = [].
Proof.
  assert (Hev : child_error_event Handoff.npx_missing
                = Some (ErrorObject "spawn npx ENOENT")) by reflexivity.
  assert (Hs : exists options,
             In (options, Normal {| pid := None |})
                (spawns (trace (startCacheServer Handoff.npx_missing))))
    by (eexists; left; vm_compute; reflexivity).
  split; [exact Hev|]. split; [exact Hs|].
  destruct Hs as [options Hs].
  destruct (launch_spawn_error_is_not_reported _ _ _ _ Hev Hs) as (Hx & Hf & _).
  split; [exact Hx | exact Hf].
Defined.

Lemma launch_publishes_api_and_team_witness :
  let tr := trace (startCacheServer Scenario.s3_workflow) in
  In (Normal 4000%N) (allocations tr) /\
  crypto_fault Scenario.s3_workflow = None /\
  (forall name value,
     core_exportVariable Scenario.s3_workflow name value = Normal tt) /\
  published tr
  = [ ("TURBO_API", "http://localhost:4000");
      ("TURBO_TOKEN", "0000000000000000000000000000000000000000000000000000000000000000");
      ("TURBO_TEAM", "production") ] /\
  (forall v out, In ("TURBO_API", v, out) (exports tr) -> v = "http://localhost:4000") /\
  (forall v out, In ("TURBO_TEAM", v, out) (exports tr) -> v = "production").
Proof.
  intros tr.
  assert (H : In (Normal 4000%N) (allocations tr)) by (vm_compute; left; reflexivity).
  assert (Hcrypto : crypto_fault Scenario.s3_workflow = None) by reflexivity.
  assert (Hexp : forall name value,
             core_exportVariable Scenario.s3_workflow name value = Normal tt)
    by reflexivity.
  unfold tr in *.
  split; [exact H|]. split; [exact Hcrypto|]. split; [exact Hexp|].
  destruct (launch_publishes_api_and_team Scenario.s3_workflow 4000%N H)
    as (_ & Hpub & Hapi & Hteam & _).
  split; [|split; [exact Hapi | exact Hteam]].
  rewrite (proj2 (Hpub Hcrypto) Hexp). vm_compute. reflexivity.
Defined.

Lemma launch_success_persists_pid_and_port_witness :
  let tr := trace (startCacheServer Scenario.s3_workflow) in
  failures tr = [] /\
  saveState_calls tr = [("serverPid", "54321"); ("serverPort", "4000")].
Proof.
  intros tr.
  assert (H : failures tr = []) by (vm_compute; reflexivity).
  assert (Hp : map (fun x => match snd x with Normal c => pid c | Throw _ => None end)
                 (spawns tr) = [Some 54321%N]) by (vm_compute; reflexivity).
  unfold tr in *. clear tr.
  split; [exact H|].
  destruct (proj1 (launch_success_persists_pid_and_port Scenario.s3_workflow) H)
    as (port & serverProcess & options & Ha & Hs & _ & Hsave & _).
  rewrite Hsave.
  assert (Hport : port = 4000%N) by (vm_compute in Ha; congruence).
  assert (Hpid : pid serverProcess = Some 54321%N).
  { rewrite Hs in Hp. simpl in Hp. congruence. }
  rewrite Hport, Hpid. reflexivity.
Defined.

Lemma cleanup_without_pid_is_quiet_witness :
  core_getState_fault Scenario.not_started = None /\
  state Scenario.not_started !! "serverPid" = None /\
  cleanupCacheServer Scenario.not_started
  = ([ EvGetState "serverPid" (Normal "");
       EvInfo "❌ Turborepo Remote Cache Server was not started or PID not found" ],
     Normal tt).
Proof.
  assert (Hf : core_getState_fault Scenario.not_started = None) by reflexivity.
  assert (Hs : state Scenario.not_started !! "serverPid" = None) by reflexivity.
  split; [exact Hf|]. split; [exact Hs|].
  exact (proj1 (cleanup_without_pid_is_quiet Scenario.not_started Hf (or_introl Hs))).
Defined.

Lemma cleanup_survives_kill_failure_witness :
  state Scenario.kill_fails !! "serverPid" = Some "12345" /\
  process_kill Scenario.kill_fails (Js.parseInt "12345") "SIGTERM"
  = Throw (ErrorObject "Process not found") /\
  completion (cleanupCacheServer Scenario.kill_fails) = Normal tt /\
  failures (trace (cleanupCacheServer Scenario.kill_fails)) = [] /\
  reads (trace (cleanupCacheServer Scenario.kill_fails)) = logFiles.
Proof.
  assert (Hf : core_getState_fault Scenario.kill_fails = None) by reflexivity.
  assert (Hs : state Scenario.kill_fails !! "serverPid" = Some "12345")
    by (vm_compute; reflexivity).
  assert (Hne : "12345" <> "") by discriminate.
  assert (Hk : process_kill Scenario.kill_fails (Js.parseInt "12345") "SIGTERM"
               = Throw (ErrorObject "Process not found")) by reflexivity.
  split; [exact Hs|]. split; [exact Hk|].
  destruct (cleanup_survives_kill_failure Scenario.kill_fails "12345" _ Hf Hs Hne Hk)
    as (Hc & Hfail & Hr & _).
  split; [exact Hc|]. split; [exact Hfail | exact Hr].
Defined.

Lemma cleanup_displays_indented_log_witness :
  fs_readFile Scenario.kill_fails "logs/turborepo-remote-cache.log" "utf8"
  = Normal Scenario.three_lines /\
  Js.trim Scenario.three_lines <> "" /\
  trace (displayLogFile Scenario.kill_fails "logs/turborepo-remote-cache.log")
  = [ EvReadFile "logs/turborepo-remote-cache.log" "utf8";
      EvStartGroup "📋 logs/turborepo-remote-cache.log";
      EvInfo Scenario.three_lines_indented;
      EvEndGroup ].
Proof.
  assert (Hr : fs_readFile Scenario.kill_fails "logs/turborepo-remote-cache.log" "utf8"
               = Normal Scenario.three_lines) by reflexivity.
  assert (Ht : Js.trim Scenario.three_lines <> "") by (vm_compute; discriminate).
  split; [exact Hr|]. split; [exact Ht|].
  exact (proj1 (cleanup_displays_indented_log Scenario.kill_fails _ _ Hr Ht)).
Defined.

Lemma launch_token_is_64_lower_hex_witness :
  let token := "0000000000000000000000000000000000000000000000000000000000000000" in
  In ("TURBO_TOKEN", token, Normal tt)
     (exports (trace (startCacheServer Scenario.launch_defaults))) /\
  is_token token.
Proof.
  intros token.
  assert (H : In ("TURBO_TOKEN", token, Normal tt)
                 (exports (trace (startCacheServer Scenario.launch_defaults))))
    by (vm_compute; right; left; reflexivity).
  split; [exact H|].
  exact (proj1 (proj1 (launch_token_is_64_lower_hex Scenario.launch_defaults) _ _ H)).
Defined.

Lemma launch_schema_validation_never_fails_witness :
  In ("TURBO_TEAM", "ci", Normal tt)
     (exports (trace (startCacheServer Scenario.launch_defaults))) /\
  exists options out,
    spawns (trace (startCacheServer Scenario.launch_defaults)) = [(options, out)].
Proof.
  assert (H : In ("TURBO_TEAM", "ci", Normal tt)
                 (exports (trace (startCacheServer Scenario.launch_defaults))))
    by (vm_compute; right; right; left; reflexivity).
  split; [exact H|].
  destruct (launch_schema_validation_never_fails
              Scenario.launch_defaults 3000%N "" "" "") as (_ & _ & _ & _ & Hrun).
  exact (Hrun _ H).
Defined.

Lemma launch_storage_keys_witness :
  inputs Scenario.empty_provider_input !! "storage-provider" = Some "" /\
  startCacheServer
    (with_inputs Scenario.empty_provider_input
       (delete "storage-provider" (inputs Scenario.empty_provider_input)))
  = startCacheServer Scenario.empty_provider_input.
Proof.
  assert (H : inputs Scenario.empty_provider_input !! "storage-provider" = Some "")
    by (vm_compute; reflexivity).
  split; [exact H|].
  destruct (launch_storage_keys Scenario.empty_provider_input) as (_ & _ & Heq).
  exact (Heq _ H).
Defined.

End Witnesses.

(** * Where the code departs from a literal reading *)

Section Departures.
Import Launch Cleanup.

(** C6. The signal fails with "Process not found" for pid 12345, and no
    [info] call carries exactly the text
    "Failed to stop server process 12345: Process not found": the one that
    reports the failure starts with the marker. *)
Lemma cleanup_kill_failure_message_has_marker :
  state Scenario.kill_fails !! "serverPid" = Some "12345" /\
  process_kill Scenario.kill_fails (Js.parseInt "12345") "SIGTERM"
  = Throw (ErrorObject "Process not found") /\
  ~ In "Failed to stop server process 12345: Process not found"
       (infos (trace (cleanupCacheServer Scenario.kill_fails))) /\
  In "❌ Failed to stop server process 12345: Process not found"
     (infos (trace (cleanupCacheServer Scenario.kill_fails))).
Proof.
  split; [vm_compute; reflexivity|]. split; [reflexivity|]. split.
  - vm_compute. intros [H|[H|[H|[]]]]; discriminate H.
  - vm_compute. left. reflexivity.
Qed.

(** C10. No storage-provider input is given, the job's environment
    defines [STORAGE_PROVIDER], and the child gets the key all the same. *)
Lemma ambient_storage_provider_reaches_child :
  ~ (forall options out,
       In (options, out) (spawns (trace (startCacheServer Scenario.ambient_storage))) ->
       (is_Some (env options !! "STORAGE_PROVIDER")
        <-> input Scenario.ambient_storage "storage-provider" <> "")).
Proof.
  intros Hclaim.
  assert (Hin : exists options out,
             In (options, out) (spawns (trace (startCacheServer Scenario.ambient_storage)))
             /\ env options !! "STORAGE_PROVIDER" = Some "s3").
  { eexists _, _. split; [vm_compute; left; reflexivity|]. vm_compute. reflexivity. }
  destruct Hin as (options & out & Hin & Henv).
  destruct (Hclaim options out Hin) as [Hnonempty _].
  apply Hnonempty; [rewrite Henv; eauto | reflexivity].
Qed.

End Departures.

(** * The unit tests of the schema and of the primitives *)

Section UnitTests.

Example schema_rejects_missing_port :
  fst (object_check Launch.ServerEnvSchema
         {[ "TURBO_TOKEN" := Js.Str "missing-port-token" ]})
  = [{| issue_path := "PORT"; issue_received := "undefined" |}].
Proof. vm_compute. reflexivity. Qed.

Example schema_rejects_number_port :
  fst (object_check Launch.ServerEnvSchema
         {[ "PORT" := Js.Number 8000; "TURBO_TOKEN" := Js.Str "invalid-port-type" ]})
  = [{| issue_path := "PORT"; issue_received := "number" |}].
Proof. vm_compute. reflexivity. Qed.

Example schema_reports_both_required_keys :
  map issue_path (fst (object_check Launch.ServerEnvSchema ∅))
  = ["PORT"; "TURBO_TOKEN"].
Proof. vm_compute. reflexivity. Qed.

Example schema_accepts_path_only :
  object_check Launch.ServerEnvSchema
    {[ "PORT" := Js.Str "6000"; "TURBO_TOKEN" := Js.Str "path-only-token";
       "STORAGE_PATH" := Js.Str "my-container" ]}
  = ([], {[ "PORT" := "6000"; "TURBO_TOKEN" := "path-only-token";
            "STORAGE_PATH" := "my-container" ]}).
Proof. vm_compute. reflexivity. Qed.

Example primitives :
  Js.trim "   " = "" /\ Js.trim "  a b  " = "a b" /\
  Js.trim (Js.of_bytes [194; 160; 10; 120; 9; 226; 128; 168]) = "x" /\
  Js.split Js.LF (Js.of_bytes [97; 10; 10; 98; 10]) = ["a"; ""; "b"; ""] /\
  Js.parseInt "12345" = Some 12345%Z /\ Js.parseInt "abc" = None /\
  Js.Number_toString 4000 = "4000" /\
  Js.Buffer_toString_hex [x00; xff; x1a] = "00ff1a".
Proof. repeat split; vm_compute; reflexivity. Qed.

(** A log that holds only white space opens no group. *)
Example whitespace_only_log_is_skipped o logFile :
  Cleanup.fs_readFile o logFile "utf8" = Normal "   " ->
  Cleanup.displayLogFile o logFile = ([EvReadFile logFile "utf8"], Normal tt).
Proof.
  intros Hread.
  unfold Cleanup.displayLogFile, Cleanup.displayLogFile_resume,
    Cleanup.displayLogFile_start, emit, try_catch.
  rewrite Hread. reflexivity.
Qed.

End UnitTests.

(** * The further properties, on the scenarios *)

Section MoreWitnesses.
Import Launch Cleanup.

Lemma launch_spawns_the_cache_server_witness :
  exists options out,
    In ("npx", ["turborepo-remote-cache"], options, out)
       (spawn_calls (trace (startCacheServer Scenario.s3_workflow))) /\
    detached options = true /\
    env options !! "PORT" = Some "4000" /\
    env options !! "TURBO_API" = Some "http://localhost:4000" /\
    env options !! "TURBO_TEAM" = Some "production".
Proof.
  assert (H : exists options out,
             In ("npx", ["turborepo-remote-cache"], options, out)
                (spawn_calls (trace (startCacheServer Scenario.s3_workflow))))
    by (eexists _, _; left; vm_compute; reflexivity).
  destruct H as (options & out & H). exists options, out.
  split; [exact H|].
  destruct (launch_spawns_the_cache_server _ _ _ _ _ H)
    as (_ & _ & Hd & _ & port & token & Ha & _ & Hport & _ & Hapi & Hteam & _).
  split; [exact Hd|].
  assert (Hp : port = 4000%N) by (vm_compute in Ha; congruence).
  rewrite Hport, Hapi, Hteam, Hp. repeat split; vm_compute; reflexivity.
Defined.

Lemma launch_polls_localhost_witness :
  let opts := {| wp_host := "localhost"; wp_port := 3000; wp_timeout := 30000 |} in
  In (opts, Normal {| open := true |})
     (polls (trace (startCacheServer Scenario.launch_defaults))) /\
  polls (trace (startCacheServer Scenario.launch_defaults))
  = [(opts, Normal {| open := true |})].
Proof.
  intros opts.
  assert (H : In (opts, Normal {| open := true |})
                 (polls (trace (startCacheServer Scenario.launch_defaults))))
    by (vm_compute; left; reflexivity).
  split; [exact H|].
  exact (proj1 (launch_polls_localhost _ _ _ H)).
Defined.

Lemma launch_persists_only_when_ready_witness :
  saveState_calls (trace (startCacheServer Scenario.launch_defaults)) <> [] /\
  exists opts,
    polls (trace (startCacheServer Scenario.launch_defaults))
    = [(opts, Normal {| open := true |})].
Proof.
  assert (H : saveState_calls (trace (startCacheServer Scenario.launch_defaults)) <> [])
    by (vm_compute; discriminate).
  split; [exact H|].
  destruct (launch_persists_only_when_ready _ H) as (opts & _ & _ & _ & Hp & _).
  now exists opts.
Defined.

Lemma launch_without_port_stops_at_once_witness :
  In (Throw (ErrorObject "No ports available"))
     (allocations (trace (startCacheServer Scenario.no_ports_available))) /\
  startCacheServer Scenario.no_ports_available
  = ([ EvMkdir "logs" true (Normal tt);
       EvGetPortPromise (Throw (ErrorObject "No ports available"));
       EvSetFailed "Failed to start Turborepo Remote Cache Server: No ports available" ],
     Normal tt).
Proof.
  assert (H : In (Throw (ErrorObject "No ports available"))
                 (allocations (trace (startCacheServer Scenario.no_ports_available))))
    by (vm_compute; left; reflexivity).
  split; [exact H|].
  exact (launch_without_port_stops_at_once _ _ H).
Defined.

Lemma launch_reads_four_inputs_witness :
  In (32, Normal (map (entropy Scenario.s3_workflow) (seq 0 32)))
     (buffers (trace (startCacheServer Scenario.s3_workflow))) /\
  input_reads (trace (startCacheServer Scenario.s3_workflow))
  = ["storage-provider"; "storage-path"; "team-id"; "host"] /\
  ~ In "port" (input_reads (trace (startCacheServer Scenario.s3_workflow))).
Proof.
  assert (H : In (32, Normal (map (entropy Scenario.s3_workflow) (seq 0 32)))
                 (buffers (trace (startCacheServer Scenario.s3_workflow))))
    by (left; vm_compute; reflexivity).
  split; [exact H|].
  destruct (launch_reads_four_inputs Scenario.s3_workflow) as (_ & Hport & Hreads).
  split; [exact (Hreads _ H) | exact Hport].
Defined.

Lemma launch_ready_report_head_witness :
  failures (trace (startCacheServer Handoff.child_without_pid)) = [] /\
  take 5 (infos (trace (startCacheServer Handoff.child_without_pid)))
  = [ "âœ… Turborepo Remote Cache Server started"; "   PID: undefined";
      "   Port: 3000"; "   API: http://127.0.0.1:3000"; "   Team: ci" ].
Proof.
  assert (H : failures (trace (startCacheServer Handoff.child_without_pid)) = [])
    by (vm_compute; reflexivity).
  split; [exact H|].
  destruct (launch_ready_report_head _ H) as (port & child & options & _ & _ & _ & _).
  vm_compute. reflexivity.
Defined.

Lemma launch_port_write_refused_witness :
  In ("serverPort", "3000", Throw (ErrorObject "Missing file at path"))
     (state_writes (trace (startCacheServer Handoff.port_write_refused))) /\
  failures (trace (startCacheServer Handoff.port_write_refused))
  = ["Failed to start Turborepo Remote Cache Server: Missing file at path"].
Proof.
  assert (H : In ("serverPort", "3000", Throw (ErrorObject "Missing file at path"))
                 (state_writes (trace (startCacheServer Handoff.port_write_refused))))
    by (vm_compute; right; left; reflexivity).
  split; [exact H|].
  destruct (launch_port_write_refused _ _ _ H) as (_ & _ & _ & _ & Hf).
  exact Hf.
Defined.

Lemma schema_accepts_iff_witness :
  let data : gmap string Js.Value :=
    {[ "PORT" := Js.Str "6000"; "TURBO_TOKEN" := Js.Str "path-only-token";
       "STORAGE_PATH" := Js.Str "my-container" ]} in
  accepted data /\
  exists output,
    ServerEnvSchema_parse Scenario.launch_defaults data = ([], Normal output) /\
    output !! "STORAGE_PATH" = Some "my-container".
Proof.
  intros data.
  assert (H : accepted data).
  { unfold accepted, is_optional_string, is_string, data.
    repeat split; simpl_map; eauto. }
  split; [exact H|].
  destruct (schema_accepts_iff Scenario.launch_defaults data) as (_ & Hacc & _).
  destruct (Hacc H) as (output & Hparse & Hout).
  exists output. split; [exact Hparse|].
  apply Hout; [unfold schema_keys; simpl; tauto|]. unfold data. now simpl_map.
Defined.

Lemma cleanup_fails_only_on_state_read_witness :
  core_getState_fault Handoff.state_access_failed
  = Some (ErrorObject "State access failed") /\
  cleanupCacheServer Handoff.state_access_failed
  = ([ EvGetState "serverPid" (Throw (ErrorObject "State access failed"));
       EvSetFailed "Error in post action: State access failed" ],
     Normal tt).
Proof.
  assert (H : core_getState_fault Handoff.state_access_failed
              = Some (ErrorObject "State access failed")) by reflexivity.
  split; [exact H|].
  destruct (cleanup_fails_only_on_state_read Handoff.state_access_failed) as (_ & _ & Hrun).
  exact (Hrun _ H).
Defined.

Lemma cleanup_signals_once_witness :
  state Handoff.cleanup_defaults !! "serverPid" = Some "12345" /\
  kills (trace (cleanupCacheServer Handoff.cleanup_defaults))
  = [(Some 12345%Z, "SIGTERM")] /\
  hd_error (infos (trace (cleanupCacheServer Handoff.cleanup_defaults)))
  = Some "✅ Turborepo Remote Cache Server stopped (PID: 12345)".
Proof.
  assert (Hf : core_getState_fault Handoff.cleanup_defaults = None) by reflexivity.
  assert (Hs : state Handoff.cleanup_defaults !! "serverPid" = Some "12345")
    by (vm_compute; reflexivity).
  assert (Hne : "12345" <> "") by discriminate.
  split; [exact Hs|].
  destruct (cleanup_signals_once Handoff.cleanup_defaults "12345" Hf Hs Hne)
    as (Hk & _ & Hinfo & _).
  split; [exact Hk | exact (Hinfo eq_refl)].
Defined.

Lemma cleanup_groups_and_diagnostics_witness :
  state Handoff.error_log_missing !! "serverPid" = Some "12345" /\
  groups (trace (cleanupCacheServer Handoff.error_log_missing))
  = ["📋 logs/turborepo-remote-cache.log"] /\
  debugs (trace (cleanupCacheServer Handoff.error_log_missing))
  = ["Could not read log file logs/turborepo-remote-cache-error.log: Error log not found"].
Proof.
  assert (Hf : core_getState_fault Handoff.error_log_missing = None) by reflexivity.
  assert (Hs : state Handoff.error_log_missing !! "serverPid" = Some "12345")
    by (vm_compute; reflexivity).
  assert (Hne : "12345" <> "") by discriminate.
  split; [exact Hs|].
  destruct (cleanup_groups_and_diagnostics Handoff.error_log_missing "12345" Hf Hs Hne)
    as (Hg & Hd & _).
  rewrite Hg, Hd. split; vm_compute; reflexivity.
Defined.

Lemma indentation_round_trip_witness :
  Cleanup.indentedContent Scenario.three_lines = Cleanup.indentedContent Scenario.three_lines /\
  Js.join (String Js.LF "")
    (map unindent (Js.split Js.LF Scenario.three_lines_indented))
  = Scenario.three_lines.
Proof.
  split; [reflexivity|].
  exact (proj1 (indentation_round_trip Scenario.three_lines)).
Defined.

Lemma handoff_signals_the_spawned_pid_witness :
  failures (trace (startCacheServer Scenario.s3_workflow)) = [] /\
  kills (trace (cleanupCacheServer
                  (after_launch (trace (startCacheServer Scenario.s3_workflow))
                     Handoff.cleanup_defaults)))
  = [(Some 54321%Z, "SIGTERM")].
Proof.
  assert (H : failures (trace (startCacheServer Scenario.s3_workflow)) = [])
    by (vm_compute; reflexivity).
  assert (Hs : exists options,
             In (options, Normal {| pid := Some 54321%N |})
                (spawns (trace (startCacheServer Scenario.s3_workflow))))
    by (eexists; left; vm_compute; reflexivity).
  destruct Hs as [options Hs].
  split; [exact H|].
  exact (handoff_signals_the_spawned_pid Scenario.s3_workflow Handoff.cleanup_defaults
           options 54321%N H Hs eq_refl).
Defined.

Lemma handoff_without_pid_witness :
  failures (trace (startCacheServer Handoff.child_without_pid)) = [] /\
  kills (trace (cleanupCacheServer
                  (after_launch (trace (startCacheServer Handoff.child_without_pid))
                     Handoff.cleanup_defaults)))
  = [].
Proof.
  assert (H : failures (trace (startCacheServer Handoff.child_without_pid)) = [])
    by (vm_compute; reflexivity).
  assert (Hs : exists options,
             In (options, Normal {| pid := None |})
                (spawns (trace (startCacheServer Handoff.child_without_pid))))
    by (eexists; left; vm_compute; reflexivity).
  destruct Hs as [options Hs].
  split; [exact H|].
  rewrite (handoff_without_pid Handoff.child_without_pid Handoff.cleanup_defaults
             options H Hs eq_refl).
  reflexivity.
Defined.

Lemma handoff_after_timeout_witness :
  let opts := {| wp_host := "localhost"; wp_port := 3000; wp_timeout := 30000 |} in
  In (opts, Normal {| open := false |})
     (polls (trace (startCacheServer Scenario.port_stays_closed))) /\
  kills (trace (cleanupCacheServer
                  (after_launch (trace (startCacheServer Scenario.port_stays_closed))
                     Handoff.cleanup_defaults)))
  = [].
Proof.
  intros opts.
  assert (H : In (opts, Normal {| open := false |})
                 (polls (trace (startCacheServer Scenario.port_stays_closed))))
    by (vm_compute; left; reflexivity).
  split; [exact H|].
  destruct (handoff_after_timeout Scenario.port_stays_closed Handoff.cleanup_defaults
              opts H eq_refl) as [_ Hrun].
  rewrite Hrun. reflexivity.
Defined.

End MoreWitnesses.
